(** * ebaysdk.connection: token cache and request/response lifecycle

    A shallow embedding of [src/ebaysdk/connection.py]: the [TokenManager]
    class and the [BaseConnection] class, as state-passing programs over an
    explicit record per object and an explicit trace of the interactions with
    the outside (wall clock, token endpoint, API transport, uuid source,
    parallel queue).  Logging calls ([log.debug], [logger.info], ...) write
    to no state the program reads back and are left out. *)

From Stdlib Require Import ZArith Lia Ascii DecimalString.
From stdpp Require Import base option list strings gmap.

Local Open Scope Z_scope.
Set Warnings "-register-all".

(** ** Python values *)

(** The values a decoded JSON body is made of ([response.json()]): [None],
    [bool], [int], [float] (kept as its 64 IEEE bits), [str], [list] and
    [dict] with string keys.  A [str] is a [string] whose characters are the
    code points below 256. *)
Inductive pyval :=
| PNone
| PBool (b : bool)
| PInt (z : Z)
| PFloat (bits : Z)
| PStr (s : string)
| PList (l : list pyval)
| PDict (d : list (string * pyval)).

(** [bool(v)], the test behind [if v], [not v] and [v or w]. *)
Definition truthy (v : pyval) : bool :=
  match v with
  | PNone => false
  | PBool b => b
  | PInt z => negb (z =? 0)
  | PFloat bits => negb ((bits =? 0) || (bits =? 2 ^ 63))
  | PStr s => negb (bool_decide (s = ""))
  | PList l => match l with [] => false | _ => true end
  | PDict d => match d with [] => false | _ => true end
  end.

(** [bool(s)] for a [str] and for an optional [str] ([None] when the keyword
    argument was not passed). *)
Definition str_truthy (s : string) : bool := negb (bool_decide (s = "")).

Definition opt_truthy (o : option string) : bool :=
  match o with
  | None => false
  | Some s => str_truthy s
  end.

(** Lookup of a key in a [dict] read from JSON. *)
Fixpoint dict_lookup (key : string) (d : list (string * pyval)) : option pyval :=
  match d with
  | [] => None
  | (k, v) :: rest => if bool_decide (k = key) then Some v else dict_lookup key rest
  end.

(** ** Strings: [str.lower], [str.startswith], [str.join] *)

Definition lower_code (n : N) : N :=
  if ((65 <=? n) && (n <=? 90))%N then (n + 32)%N
  else if ((192 <=? n) && (n <=? 222) && negb (n =? 215))%N then (n + 32)%N
  else n.

Definition lower_char (c : ascii) : ascii := ascii_of_N (lower_code (N_of_ascii c)).

Fixpoint lower (s : string) : string :=
  match s with
  | EmptyString => EmptyString
  | String c rest => String (lower_char c) (lower rest)
  end.

Fixpoint startswith (s prefix : string) {struct prefix} : bool :=
  match prefix with
  | EmptyString => true
  | String p prefix' =>
      match s with
      | EmptyString => false
      | String c s' => bool_decide (c = p) && startswith s' prefix'
      end
  end.

Fixpoint join (sep : string) (l : list string) : string :=
  match l with
  | [] => ""
  | [x] => x
  | x :: rest => x +:+ sep +:+ join sep rest
  end.

(** [base64.b64encode] on the bytes of an ASCII string. *)
Definition b64_alphabet : string :=
  "ABCDEFGHIJKLMNOPQRSTUVWXYZabcdefghijklmnopqrstuvwxyz0123456789+/".

Definition b64_char (n : N) : ascii :=
  default "="%char (String.get (N.to_nat n) b64_alphabet).

Fixpoint b64_groups (bytes : list N) : list ascii :=
  match bytes with
  | [] => []
  | [a] =>
      [b64_char (a / 4); b64_char ((a mod 4) * 16); "="%char; "="%char]
  | [a; b] =>
      [b64_char (a / 4); b64_char ((a mod 4) * 16 + b / 16);
       b64_char ((b mod 16) * 4); "="%char]
  | a :: b :: c :: rest =>
      b64_char (a / 4) :: b64_char ((a mod 4) * 16 + b / 16)
      :: b64_char ((b mod 16) * 4 + c / 64) :: b64_char (c mod 64)
      :: b64_groups rest
  end%N.

Definition b64encode (s : string) : string :=
  String.string_of_list_ascii (b64_groups (map N_of_ascii (String.list_ascii_of_string s))).

(** [s.encode('ascii')] succeeds iff every code point is below 128. *)
Fixpoint is_ascii (s : string) : bool :=
  match s with
  | EmptyString => true
  | String c rest => (N_of_ascii c <? 128)%N && is_ascii rest
  end.

(** ** Wall-clock time: [datetime] and [timedelta] *)

(** A naive [datetime] is its number of microseconds on the local time line;
    [datetime.now()] reads the wall clock. *)
Definition datetime := Z.

(** A [timedelta] is kept normalised: [0 <= seconds < 86400] and
    [0 <= microseconds < 1000000], the sign lives in [days]. *)
Record timedelta := {
  days : Z;
  seconds : Z;
  microseconds : Z
}.

Definition US_PER_SECOND : Z := 1000000.
Definition SECONDS_PER_DAY : Z := 86400.

Definition timedelta_of_microseconds (us : Z) : timedelta :=
  {| days := us / (SECONDS_PER_DAY * US_PER_SECOND);
     seconds := (us / US_PER_SECOND) mod SECONDS_PER_DAY;
     microseconds := us mod US_PER_SECOND |}.

(** [a - b] on two [datetime]s. *)
Definition datetime_sub (a b : datetime) : timedelta :=
  timedelta_of_microseconds (a - b).

(** [timedelta.total_seconds()], in microseconds. *)
Definition total_microseconds (d : timedelta) : Z :=
  (days d * SECONDS_PER_DAY + seconds d) * US_PER_SECOND + microseconds d.

(** ** HTTP objects *)

(** What [requests] hands back from the API transport: the attributes of the
    raw response the connection reads. *)
Record RawResponse := {
  raw_status_code : Z;
  raw_reason : string;
  raw_content : string
}.

(** Modelled from the spec: the normalized result [ebaysdk.response.Response]
    (section 3, ResponseResult), which wraps the raw transport response with
    the verb and the list-node and datetime-node paths it was built with;
    [status_code], [reason] and [content] are read through to the wrapped
    object. *)
Record Response := {
  resp_obj : RawResponse;
  resp_verb : option string;
  resp_list_nodes : list string;
  resp_datetime_nodes : list string
}.

Definition status_code (r : Response) : Z := raw_status_code (resp_obj r).
Definition reason (r : Response) : string := raw_reason (resp_obj r).
Definition content (r : Response) : string := raw_content (resp_obj r).

(** The three things [self.response] can hold. *)
Inductive response_slot :=
| NoResponse
| Transport (r : RawResponse)
| Normalized (r : Response).

(** [hasattr(self.response, 'content')] *)
Definition has_content (r : response_slot) : bool :=
  match r with
  | NoResponse => false
  | Transport _ | Normalized _ => true
  end.

(** The body handed to [Request]: [build_request_data] returns a [str] (the
    XML payload), [bytes] or a [dict] of form fields. *)
Inductive request_data :=
| DataStr (s : string)
| DataBytes (b : string)
| DataDict (d : gmap string request_data).

(** [isinstance(requestData, str)] *)
Definition is_str (d : request_data) : bool :=
  match d with
  | DataStr _ => true
  | _ => false
  end.

(** The arguments the prepared [Request] is built from; [self.request] is
    kept as this record. *)
Record PreparedRequest := {
  req_method : string;
  req_url : string;
  req_data : request_data;
  req_headers : gmap string pyval;
  req_files : option (gmap string string)
}.

(** The token request of [TokenManager._send_request]. *)
Record TokenRequest := {
  tok_url : string;
  tok_headers : list (string * string);
  tok_data : string
}.

(** ** Exceptions *)

(** The exceptions the two classes raise or let through.  [RequestException]
    stands for whatever [requests] raises when a call cannot be completed;
    [ConnectionError] is [ebaysdk.exception.ConnectionError], built from the
    error message and the value of [self.response]. *)
Inductive exn :=
| ValueError (msg : string)
| TypeError (msg : string)
| KeyError (key : string)
| AttributeError (msg : string)
| UnicodeEncodeError
| JSONDecodeError
| RequestException (msg : string)
| ConnectionError (msg : string) (response : response_slot).

(** A call returns a value or raises. *)
Inductive outcome (A : Type) :=
| Return (a : A)
| Raise (e : exn).
Arguments Return {A} a.
Arguments Raise {A} e.

(** ** The outside world *)

(** Every interaction with the outside is recorded, oldest first: a reading
    of [datetime.now()], a [requests.post] to the token endpoint, a
    [uuid.uuid4()], a [session.send], a [session.close()], and a
    [parallel._add_request(self)], recorded with the request the connection
    holds at that point. *)
Inductive event :=
| EvNow (t : datetime)
| EvTokenPost (r : TokenRequest)
| EvUuid4 (u : string)
| EvSend (r : PreparedRequest)
| EvSessionClose
| EvAddRequest (r : option PreparedRequest).

Abbreviation world := (list event).

Definition is_network (e : event) : bool :=
  match e with
  | EvTokenPost _ | EvSend _ => true
  | _ => false
  end.

(** The network events of a trace: token fetches and API sends. *)
Definition network (w : world) : list event := filter (λ e, is_network e = true) w.

(** What [requests.post] does: raise, or return a response whose [.json()]
    either raises (body not valid JSON) or yields the decoded value.  The
    status of that response is never read. *)
Inductive post_outcome :=
| PostRaises (e : exn)
| PostReturns (json : option pyval).

(** What [session.send] does. *)
Inductive send_outcome :=
| SendRaises (e : exn)
| SendReturns (r : RawResponse).

(** The collaborators outside this file.  The answers of the clock, of the
    token endpoint, of the API transport and of the uuid source may depend on
    everything that happened before.  [smart_encode_request_data] may raise
    on the body it is given.  [prepare_raises] says whether
    [Request(...).prepare()] raises on the arguments it is given (an invalid
    URL, a header value that is no [str], a body that cannot go with files)
    and with what; what preparing adds to the arguments is read by no code
    of the connection. *)
Class Platform := {
  clock : world → datetime;
  token_endpoint : world → TokenRequest → post_outcome;
  transport : world → PreparedRequest → send_outcome;
  uuid_source : world → string;
  response_dom : Response → outcome (option string);
  UserAgent : string;
  smart_encode : string → string;
  smart_decode : string → string;
  smart_encode_request_data : request_data → outcome request_data;
  prepare_raises : PreparedRequest → option exn
}.

(** ** Programs: state of the object, trace of the world, exceptions *)

Definition Py (S A : Type) : Type := S → world → outcome A * S * world.

Definition py_ret {S A} (a : A) : Py S A := λ s w, (Return a, s, w).

Definition py_bind {S A B} (m : Py S A) (k : A → Py S B) : Py S B :=
  λ s w,
    match m s w with
    | (Return a, s', w') => k a s' w'
    | (Raise e, s', w') => (Raise e, s', w')
    end.

Definition raise {S A} (e : exn) : Py S A := λ s w, (Raise e, s, w).
Definition get {S} : Py S S := λ s w, (Return s, s, w).
Definition gets {S A} (f : S → A) : Py S A := λ s w, (Return (f s), s, w).
Definition modify {S} (f : S → S) : Py S unit := λ s w, (Return tt, f s, w).
Definition emit {S} (e : event) : Py S unit := λ s w, (Return tt, s, w ++ [e]).
Definition history {S} : Py S world := λ s w, (Return w, s, w).

(** A pure computation that may raise. *)
Definition lift {S A} (o : outcome A) : Py S A := λ s w, (o, s, w).

(** Run a method of an attribute object [T] held in a field of [S]. *)
Definition zoom {S T A} (proj : S → T) (upd : T → S → S) (m : Py T A) : Py S A :=
  λ s w, let '(o, t', w') := m (proj s) w in (o, upd t' s, w').

Declare Scope py_scope.
Delimit Scope py_scope with py.
Notation "x <- m ;; k" := (py_bind m (λ x, k))
  (at level 100, m at next level, right associativity) : py_scope.
Notation "m ;; k" := (py_bind m (λ _, k))
  (at level 100, right associativity) : py_scope.
Local Open Scope py_scope.

Section TokenManager.
Context `{Platform}.

(** [datetime.now()] *)
Definition datetime_now {S} : Py S datetime :=
  w <- history ;;
  let t := clock w in
  emit (EvNow t) ;;
  py_ret t.

(** [requests.post(url, headers=headers, data=data)] *)
Definition requests_post {S} (r : TokenRequest) : Py S (option pyval) :=
  w <- history ;;
  emit (EvTokenPost r) ;;
  match token_endpoint w r with
  | PostRaises e => raise e
  | PostReturns json => py_ret json
  end.

Definition URL_PRODUCTION : string := "https://api.ebay.com/identity/v1/oauth2/token".
Definition TOKEN_TTL_SECS : Z := 60 * 60.

Record TokenManager := {
  client_id : string;
  client_secret : string;
  current_token : pyval;
  date_token_fetched : option datetime
}.

Definition TokenManager_init (id secret : string) : TokenManager :=
  {| client_id := id;
     client_secret := secret;
     current_token := PNone;
     date_token_fetched := None |}.

Definition set_current_token (v : pyval) (self : TokenManager) : TokenManager :=
  {| client_id := client_id self;
     client_secret := client_secret self;
     current_token := v;
     date_token_fetched := date_token_fetched self |}.

Definition set_date_token_fetched (t : datetime) (self : TokenManager) : TokenManager :=
  {| client_id := client_id self;
     client_secret := client_secret self;
     current_token := current_token self;
     date_token_fetched := Some t |}.

(** [response_dict['access_token']] *)
Definition getitem (v : pyval) (key : string) : outcome pyval :=
  match v with
  | PDict d =>
      match dict_lookup key d with
      | Some x => Return x
      | None => Raise (KeyError key)
      end
  | PStr _ => Raise (TypeError "string indices must be integers")
  | PList _ => Raise (TypeError "list indices must be integers or slices")
  | PNone | PBool _ | PInt _ | PFloat _ => Raise (TypeError "object is not subscriptable")
  end.

Definition _send_request : Py TokenManager pyval :=
  self <- get ;;
  let url := URL_PRODUCTION in
  let credentials := client_id self +:+ ":" +:+ client_secret self in
  (if is_ascii credentials then py_ret tt else raise UnicodeEncodeError) ;;
  let credentials_b64 := b64encode credentials in
  let headers := [("Content-Type", "application/x-www-form-urlencoded");
                  ("Authorization", "Basic " +:+ credentials_b64)] in
  let data := "grant_type=client_credentials&scope=https%3A%2F%2Fapi.ebay.com%2Foauth%2Fapi_scope" in
  response <- requests_post {| tok_url := url; tok_headers := headers; tok_data := data |} ;;
  match response with
  | None => raise JSONDecodeError
  | Some response_dict => lift (getitem response_dict "access_token")
  end.

Definition is_expired : Py TokenManager bool :=
  now <- datetime_now ;;
  self <- get ;;
  match date_token_fetched self with
  | None => raise (TypeError "unsupported operand type(s) for -: datetime and NoneType")
  | Some fetched =>
      let diff := datetime_sub now fetched in
      let expired := TOKEN_TTL_SECS <=? seconds diff in
      py_ret expired
  end.

Definition get_token : Py TokenManager pyval :=
  self <- get ;;
  stale <- (if negb (truthy (current_token self)) then py_ret true else is_expired) ;;
  if (stale : bool) then
    token <- _send_request ;;
    modify (set_current_token token) ;;
    now <- datetime_now ;;
    modify (set_date_token_fetched now) ;;
    gets current_token
  else
    gets current_token.

End TokenManager.

(** ** BaseConnection *)

(** Modelled from the spec: the configuration object [self.config] (section
    6, configuration surface), read only through [config.get(key, default)];
    a field is [None] when the key has no value. *)
Record Config := {
  cfg_https : option bool;
  cfg_domain : option string;
  cfg_uri : option string;
  cfg_errors : option bool;
  cfg_doc_url : option string
}.

(** [str(x)] for an optional [str] and for an [int]. *)
Definition str_of_opt (o : option string) : string := default "None" o.
Definition str_of_int (z : Z) : string := NilZero.string_of_int (Z.to_int z).

Definition HTTP_SSL (https : bool) : string := if https then "https" else "http".

Record Connection := {
  token_manager : TokenManager;
  response : response_slot;
  request : option PreparedRequest;
  verb : option string;
  config : option Config;
  method : string;
  timeout : Z;
  proxy_host : option string;
  proxy_port : Z;
  escape_xml : bool;
  datetime_nodes : list string;
  _list_nodes : list string;
  proxies : gmap string string;
  parallel : option nat;
  base_list_nodes : list string;
  _request_id : option string;
  _request_dict : pyval;
  _response_content : option string;
  _response_error : option string;
  _resp_body_errors : list string;
  _resp_body_warnings : list string;
  _resp_codes : list string
}.

Definition set_token_manager (x : TokenManager) (self : Connection) : Connection :=
  let 'Build_Connection _ f2 f3 f4 f5 f6 f7 f8 f9 f10 f11 f12 f13 f14 f15 f16 f17 f18 f19 f20 f21 f22 := self in
  Build_Connection x f2 f3 f4 f5 f6 f7 f8 f9 f10 f11 f12 f13 f14 f15 f16 f17 f18 f19 f20 f21 f22.

Definition set_response (x : response_slot) (self : Connection) : Connection :=
  let 'Build_Connection f1 _ f3 f4 f5 f6 f7 f8 f9 f10 f11 f12 f13 f14 f15 f16 f17 f18 f19 f20 f21 f22 := self in
  Build_Connection f1 x f3 f4 f5 f6 f7 f8 f9 f10 f11 f12 f13 f14 f15 f16 f17 f18 f19 f20 f21 f22.

Definition set_request (x : option PreparedRequest) (self : Connection) : Connection :=
  let 'Build_Connection f1 f2 _ f4 f5 f6 f7 f8 f9 f10 f11 f12 f13 f14 f15 f16 f17 f18 f19 f20 f21 f22 := self in
  Build_Connection f1 f2 x f4 f5 f6 f7 f8 f9 f10 f11 f12 f13 f14 f15 f16 f17 f18 f19 f20 f21 f22.

Definition set_verb (x : option string) (self : Connection) : Connection :=
  let 'Build_Connection f1 f2 f3 _ f5 f6 f7 f8 f9 f10 f11 f12 f13 f14 f15 f16 f17 f18 f19 f20 f21 f22 := self in
  Build_Connection f1 f2 f3 x f5 f6 f7 f8 f9 f10 f11 f12 f13 f14 f15 f16 f17 f18 f19 f20 f21 f22.

Definition set_list_nodes (x : list string) (self : Connection) : Connection :=
  let 'Build_Connection f1 f2 f3 f4 f5 f6 f7 f8 f9 f10 f11 _ f13 f14 f15 f16 f17 f18 f19 f20 f21 f22 := self in
  Build_Connection f1 f2 f3 f4 f5 f6 f7 f8 f9 f10 f11 x f13 f14 f15 f16 f17 f18 f19 f20 f21 f22.

Definition set_request_id (x : option string) (self : Connection) : Connection :=
  let 'Build_Connection f1 f2 f3 f4 f5 f6 f7 f8 f9 f10 f11 f12 f13 f14 f15 _ f17 f18 f19 f20 f21 f22 := self in
  Build_Connection f1 f2 f3 f4 f5 f6 f7 f8 f9 f10 f11 f12 f13 f14 f15 x f17 f18 f19 f20 f21 f22.

Definition set_request_dict (x : pyval) (self : Connection) : Connection :=
  let 'Build_Connection f1 f2 f3 f4 f5 f6 f7 f8 f9 f10 f11 f12 f13 f14 f15 f16 _ f18 f19 f20 f21 f22 := self in
  Build_Connection f1 f2 f3 f4 f5 f6 f7 f8 f9 f10 f11 f12 f13 f14 f15 f16 x f18 f19 f20 f21 f22.

Definition set_response_content (x : option string) (self : Connection) : Connection :=
  let 'Build_Connection f1 f2 f3 f4 f5 f6 f7 f8 f9 f10 f11 f12 f13 f14 f15 f16 f17 _ f19 f20 f21 f22 := self in
  Build_Connection f1 f2 f3 f4 f5 f6 f7 f8 f9 f10 f11 f12 f13 f14 f15 f16 f17 x f19 f20 f21 f22.

Definition set_response_error (x : option string) (self : Connection) : Connection :=
  let 'Build_Connection f1 f2 f3 f4 f5 f6 f7 f8 f9 f10 f11 f12 f13 f14 f15 f16 f17 f18 _ f20 f21 f22 := self in
  Build_Connection f1 f2 f3 f4 f5 f6 f7 f8 f9 f10 f11 f12 f13 f14 f15 f16 f17 f18 x f20 f21 f22.

(** The overridable methods of a service (the per-endpoint subclasses):
    request headers, request body, and the errors found in the response
    body. *)
Class Service := {
  build_request_headers : Connection → option string → gmap string pyval;
  build_request_data : Connection → option string → pyval → pyval → request_data;
  _get_resp_body_errors : Connection → outcome (list string)
}.

Section BaseConnection.
Context `{Platform} `{Service}.

(** [uuid.uuid4()] *)
Definition uuid4 {S} : Py S string :=
  w <- history ;;
  let u := uuid_source w in
  emit (EvUuid4 u) ;;
  py_ret u.

(** [self.session.send(self.request, verify=True, ...)] *)
Definition session_send {S} (r : PreparedRequest) : Py S RawResponse :=
  w <- history ;;
  emit (EvSend r) ;;
  match transport w r with
  | SendRaises e => raise e
  | SendReturns raw => py_ret raw
  end.

Definition reset_fields (self : Connection) : Connection :=
  {| token_manager := token_manager self;
     response := NoResponse;
     request := None;
     verb := None;
     config := config self;
     method := method self;
     timeout := timeout self;
     proxy_host := proxy_host self;
     proxy_port := proxy_port self;
     escape_xml := escape_xml self;
     datetime_nodes := datetime_nodes self;
     _list_nodes := [];
     proxies := proxies self;
     parallel := parallel self;
     base_list_nodes := base_list_nodes self;
     _request_id := None;
     _request_dict := PDict [];
     _response_content := None;
     _response_error := None;
     _resp_body_errors := [];
     _resp_body_warnings := [];
     _resp_codes := [] |}.

Definition _reset : Py Connection unit := modify reset_fields.

(** The constructor.  [client_id] and [client_secret] come from the keyword
    arguments ([None] when not passed); mounting the HTTP adapters on the
    new session and the [debug] logger switch touch nothing modelled. *)
Definition BaseConnection_init (method_ : string) (proxy_host_ : option string)
    (timeout_ proxy_port_ : Z) (parallel_ : option nat) (escape_xml_ : bool)
    (client_id_ client_secret_ : option string) : Py unit Connection :=
  if negb (opt_truthy client_id_) || negb (opt_truthy client_secret_) then
    raise (ValueError "<client_id> and <client_secret> must be provided for API access")
  else
    let proxy := "http://" +:+ str_of_opt proxy_host_ +:+ ":" +:+ str_of_int proxy_port_ in
    py_ret (reset_fields
      {| token_manager := TokenManager_init (default "" client_id_) (default "" client_secret_);
         response := NoResponse;
         request := None;
         verb := None;
         config := None;
         method := method_;
         timeout := timeout_;
         proxy_host := proxy_host_;
         proxy_port := proxy_port_;
         escape_xml := escape_xml_;
         datetime_nodes := [];
         _list_nodes := [];
         proxies := if opt_truthy proxy_host_
                    then <["https" := proxy]> (<["http" := proxy]> ∅)
                    else ∅;
         parallel := parallel_;
         base_list_nodes := [];
         _request_id := None;
         _request_dict := PDict [];
         _response_content := None;
         _response_error := None;
         _resp_body_errors := [];
         _resp_body_warnings := [];
         _resp_codes := [] |}).

(** One round of the loop of [_add_prefix]: [nodes[i]] is rewritten in
    place when it does not start with the lowercase verb. *)
Definition add_prefix_at (v : string) (nodes : list string) (i : nat) : list string :=
  match nodes !! i with
  | Some node =>
      if negb (startswith node (lower v))
      then <[i := lower v +:+ "response." +:+ lower node]> nodes
      else nodes
  | None => nodes
  end.

Definition _add_prefix (nodes : list string) (v : option string) : list string :=
  if opt_truthy v
  then foldl (add_prefix_at (default "" v)) nodes (seq 0 (length nodes))
  else nodes.

Definition build_request_url (v : option string) : Py Connection string :=
  self <- get ;;
  match config self with
  | None => raise (AttributeError "NoneType object has no attribute get")
  | Some c =>
      py_ret (HTTP_SSL (default true (cfg_https c)) +:+ "://"
              +:+ str_of_opt (cfg_domain c) +:+ str_of_opt (cfg_uri c))
  end.

(** [bool(files)] for the optional dict of attachments. *)
Definition files_truthy (files : option (gmap string string)) : bool :=
  match files with
  | None => false
  | Some m => negb (bool_decide (m = ∅))
  end.

(** [del(headers['Content-Type'])] *)
Definition del_item {S} (key : string) (headers : gmap string pyval)
    : Py S (gmap string pyval) :=
  match headers !! key with
  | None => raise (KeyError key)
  | Some _ => py_ret (delete key headers)
  end.

(** [build_request].  The body is encoded and the request prepared after
    the headers and the attachments are dealt with; either step may raise,
    and [self.request] is assigned only when both returned. *)
Definition build_request (v : option string) (data verb_attrs : pyval)
    (files : option (gmap string string)) : Py Connection unit :=
  modify (set_verb v) ;;
  modify (set_request_dict data) ;;
  request_id <- uuid4 ;;
  modify (set_request_id (Some request_id)) ;;
  url <- build_request_url v ;;
  self <- get ;;
  let headers := build_request_headers self v in
  let headers := <["X-EBAY-SDK-REQUEST-ID" := PStr request_id]>
                   (<["User-Agent" := PStr UserAgent]> headers) in
  token <- zoom token_manager set_token_manager get_token ;;
  let headers := <["X-EBAY-API-IAF-TOKEN" := token]> headers in
  self <- get ;;
  let requestData := build_request_data self v data verb_attrs in
  with_files <-
    (if files_truthy files then
       headers <- del_item "Content-Type" headers ;;
       py_ret (headers,
               if is_str requestData
               then DataDict (<["XMLPayload" := requestData]> ∅)
               else requestData)
     else py_ret (headers, requestData)) ;;
  let headers := with_files.1 in
  let requestData := with_files.2 in
  self <- get ;;
  encoded <- lift (smart_encode_request_data requestData) ;;
  let request := {| req_method := method self;
                    req_url := url;
                    req_data := encoded;
                    req_headers := headers;
                    req_files := files |} in
  (match prepare_raises request with
   | Some e => raise e
   | None => py_ret tt
   end) ;;
  modify (set_request (Some request)).

Definition execute_request : Py Connection unit :=
  self <- get ;;
  match request self with
  | None => raise (AttributeError "NoneType object has no attribute method")
  | Some req =>
      match parallel self with
      | Some _ => emit (EvAddRequest (request self))
      | None =>
          raw <- session_send req ;;
          modify (set_response (Transport raw))
      end
  end.

Definition process_response : Py Connection unit :=
  self <- get ;;
  raw <- match response self with
         | NoResponse => raise (AttributeError "NoneType object has no attribute content")
         | Transport raw => py_ret raw
         | Normalized r => py_ret (resp_obj r)
         end ;;
  let r := {| resp_obj := raw;
              resp_verb := verb self;
              resp_list_nodes := _list_nodes self;
              resp_datetime_nodes := datetime_nodes self |} in
  modify (set_response (Normalized r)) ;;
  emit EvSessionClose ;;
  modify (set_response_content (Some (content r))) ;;
  if negb (status_code r =? 200)
  then modify (set_response_error (Some (reason r)))
  else py_ret tt.

Definition error : Py Connection (option string) :=
  self <- get ;;
  let error_array :=
    match _response_error self with
    | Some e => if str_truthy e then [e] else []
    | None => []
    end in
  body_errors <- lift (_get_resp_body_errors self) ;;
  let error_array := error_array ++ body_errors in
  if (0 <? length error_array)%nat then
    let error_array := map (λ e, smart_decode (smart_encode e)) error_array in
    let error_string := str_of_opt (verb self) +:+ ": " +:+ join ", " error_array in
    py_ret (Some error_string)
  else py_ret None.

Definition error_check : Py Connection unit :=
  estr <- error ;;
  if opt_truthy estr then
    self <- get ;;
    match config self with
    | None => raise (AttributeError "NoneType object has no attribute get")
    | Some c =>
        if default true (cfg_errors c)
        then raise (ConnectionError (default "" estr) (response self))
        else py_ret tt
    end
  else py_ret tt.

Definition execute (v : option string) (data : pyval) (list_nodes : list string)
    (verb_attrs : pyval) (files : option (gmap string string))
    : Py Connection response_slot :=
  _reset ;;
  modify (λ self, set_list_nodes (_list_nodes self ++ list_nodes) self) ;;
  modify (λ self, set_list_nodes (_add_prefix (_list_nodes self) v) self) ;;
  modify (λ self, set_list_nodes (_list_nodes self ++ base_list_nodes self) self) ;;
  build_request v data verb_attrs files ;;
  execute_request ;;
  self <- get ;;
  (if has_content (response self)
   then process_response ;; error_check
   else py_ret tt) ;;
  gets response.

End BaseConnection.

(** ** The base class as a service *)

Section BaseService.
Context `{Platform}.

(** [BaseConnection._get_resp_body_errors]: the errors already collected,
    if any; otherwise the response DOM is requested and no error is
    reported. *)
Definition base_get_resp_body_errors (self : Connection) : outcome (list string) :=
  if (0 <? length (_resp_body_errors self))%nat then Return (_resp_body_errors self)
  else
    match verb self with
    | None => Return []
    | Some _ =>
        match response self with
        | Normalized r =>
            match response_dom r with
            | Return _ => Return []
            | Raise e => Raise e
            end
        | NoResponse => Raise (AttributeError "NoneType object has no attribute dom")
        | Transport _ => Raise (AttributeError "Response object has no attribute dom")
        end
    end.

(** [build_request_headers] returns [{}] and [build_request_data] returns
    the empty string. *)
Definition BaseService : Service :=
  {| build_request_headers := λ _ _, ∅;
     build_request_data := λ _ _ _ _, DataStr "";
     _get_resp_body_errors := base_get_resp_body_errors |}.

End BaseService.

(** ** The stages of [execute] *)

Section Stages.
Context `{Platform} `{Service}.

(** The statements of [execute] up to and including [build_request]. *)
Definition execute_build (v : option string) (data : pyval) (list_nodes : list string)
    (verb_attrs : pyval) (files : option (gmap string string)) : Py Connection unit :=
  _reset ;;
  modify (λ self, set_list_nodes (_list_nodes self ++ list_nodes) self) ;;
  modify (λ self, set_list_nodes (_add_prefix (_list_nodes self) v) self) ;;
  modify (λ self, set_list_nodes (_list_nodes self ++ base_list_nodes self) self) ;;
  build_request v data verb_attrs files.

(** The statements of [execute] up to and including [execute_request]. *)
Definition execute_send (v : option string) (data : pyval) (list_nodes : list string)
    (verb_attrs : pyval) (files : option (gmap string string)) : Py Connection unit :=
  execute_build v data list_nodes verb_attrs files ;;
  execute_request.

End Stages.

(** The managers a program can hold: a new one, and any left by a call of
    [get_token], whatever the world did. *)
Inductive reachable `{Platform} : TokenManager → Prop :=
| reachable_init id secret : reachable (TokenManager_init id secret)
| reachable_get_token self w o self' w' :
    reachable self →
    get_token self w = (o, self', w') →
    reachable self'.

(** The events of a trace that are API sends, and those that close the
    session after a response was processed. *)
Definition is_send (e : event) : bool :=
  match e with
  | EvSend _ => true
  | _ => false
  end.

Definition is_close (e : event) : bool :=
  match e with
  | EvSessionClose => true
  | _ => false
  end.

Definition sends (w : world) : list event := filter (λ e, is_send e = true) w.
Definition closes (w : world) : list event := filter (λ e, is_close e = true) w.

(** Elapsed wall-clock time, in microseconds, for a number of seconds. *)
Definition secs (n : Z) : Z := n * US_PER_SECOND.

(** ** Concrete collaborators, to run the programs *)

(** A world with a fixed clock reading, a fixed answer of the token endpoint
    and a fixed answer of the API; the codecs of [ebaysdk.utils] leave a
    [str] as it is. *)
Definition scripted (now : datetime) (post : post_outcome) (send : send_outcome) : Platform :=
  {| clock := λ _, now;
     token_endpoint := λ _ _, post;
     transport := λ _ _, send;
     uuid_source := λ _, "8c5e3a52-4b1f-4d59-9f0e-2f6f0c1d7a11";
     response_dom := λ _, Return None;
     UserAgent := "eBaySDK/2.2.0";
     smart_encode := λ s, s;
     smart_decode := λ s, s;
     smart_encode_request_data := λ d, Return d;
     prepare_raises := λ _, None |}.

(** A service whose response bodies carry the given errors. *)
Definition reporting (errors : list string) : Service :=
  {| build_request_headers := λ _ _, <["Content-Type" := PStr "text/xml"]> ∅;
     build_request_data := λ _ _ _ _, DataStr "<GetItemRequest/>";
     _get_resp_body_errors := λ _, Return errors |}.

Definition token_body (tok : string) : post_outcome :=
  PostReturns (Some (PDict [("access_token", PStr tok); ("expires_in", PInt 7200)])).

Definition ok_response : send_outcome :=
  SendReturns {| raw_status_code := 200; raw_reason := "OK"; raw_content := "<GetItemResponse/>" |}.

(** A manager holding the token [tok] fetched at time [fetched]. *)
Definition holding (tok : string) (fetched : datetime) : TokenManager :=
  {| client_id := "id";
     client_secret := "secret";
     current_token := PStr tok;
     date_token_fetched := Some fetched |}.

Definition trading_config (errors_flag : option bool) : Config :=
  {| cfg_https := None;
     cfg_domain := Some "api.ebay.com";
     cfg_uri := Some "/ws/api.dll";
     cfg_errors := errors_flag;
     cfg_doc_url := None |}.

(** A connection as the constructor leaves it, for the given manager,
    configuration and parallel context. *)
Definition connection_of (tm : TokenManager) (c : option Config) (par : option nat) : Connection :=
  {| token_manager := tm;
     response := NoResponse;
     request := None;
     verb := None;
     config := c;
     method := "POST";
     timeout := 20;
     proxy_host := None;
     proxy_port := 80;
     escape_xml := false;
     datetime_nodes := [];
     _list_nodes := [];
     proxies := ∅;
     parallel := par;
     base_list_nodes := [];
     _request_id := None;
     _request_dict := PDict [];
     _response_content := None;
     _response_error := None;
     _resp_body_errors := [];
     _resp_body_warnings := [];
     _resp_codes := [] |}.

(** ** Parts of [TokenManager] named for the statements below *)

Section TokenParts.
Context `{Platform}.

(** The request [_send_request] posts to the token endpoint. *)
Definition token_request_of (self : TokenManager) : TokenRequest :=
  {| tok_url := URL_PRODUCTION;
     tok_headers :=
       [("Content-Type", "application/x-www-form-urlencoded");
        ("Authorization",
         "Basic " +:+ b64encode (client_id self +:+ ":" +:+ client_secret self))];
     tok_data :=
       "grant_type=client_credentials&scope=https%3A%2F%2Fapi.ebay.com%2Foauth%2Fapi_scope" |}.

(** The first branch of [get_token]: fetch, cache, stamp, return. *)
Definition fetch_and_cache : Py TokenManager pyval :=
  token <- _send_request ;;
  modify (set_current_token token) ;;
  now <- datetime_now ;;
  modify (set_date_token_fetched now) ;;
  gets current_token.

(** What [is_expired] raises on a manager whose fetch time is unset. *)
Definition unset_fetch_time_error : exn :=
  TypeError "unsupported operand type(s) for -: datetime and NoneType".

End TokenParts.

(** The path [_add_prefix] leaves in place of [node] for the verb [v]. *)
Definition with_prefix (v node : string) : string :=
  if startswith node (lower v) then node else lower v +:+ "response." +:+ lower node.

(** From [w] to [w'] nothing was sent to the API and no session was closed. *)
Definition quiet (w w' : world) : Prop := sends w' = sends w ∧ closes w' = closes w.

(** ** More of [BaseConnection]: the response accessors *)

(** [response_status()]: [self.response.reason] *)
Definition response_status : Py Connection string :=
  self <- get ;;
  match response self with
  | NoResponse => raise (AttributeError "NoneType object has no attribute reason")
  | Transport raw => py_ret (raw_reason raw)
  | Normalized r => py_ret (reason r)
  end.

(** [response_code()]: [self.response.status_code] *)
Definition response_code : Py Connection Z :=
  self <- get ;;
  match response self with
  | NoResponse => raise (AttributeError "NoneType object has no attribute status_code")
  | Transport raw => py_ret (raw_status_code raw)
  | Normalized r => py_ret (status_code r)
  end.

(** [response_content()]: [self.response.content] *)
Definition response_content : Py Connection string :=
  self <- get ;;
  match response self with
  | NoResponse => raise (AttributeError "NoneType object has no attribute content")
  | Transport raw => py_ret (raw_content raw)
  | Normalized r => py_ret (content r)
  end.

(** ** Notions for the statements on traces and settings *)

Definition is_token_post (e : event) : bool :=
  match e with
  | EvTokenPost _ => true
  | _ => false
  end.

(** The posts to the token endpoint in a trace. *)
Definition token_posts (w : world) : list event :=
  filter (λ e, is_token_post e = true) w.

(** The attributes of a connection no method of the class assigns after
    the constructor. *)
Definition same_settings (s s' : Connection) : Prop :=
  config s' = config s
  ∧ method s' = method s
  ∧ timeout s' = timeout s
  ∧ proxy_host s' = proxy_host s
  ∧ proxy_port s' = proxy_port s
  ∧ escape_xml s' = escape_xml s
  ∧ datetime_nodes s' = datetime_nodes s
  ∧ proxies s' = proxies s
  ∧ parallel s' = parallel s
  ∧ base_list_nodes s' = base_list_nodes s.

(** A manager with the credentials of [self] holding [tok] fetched at [t]. *)
Definition refreshed (self : TokenManager) (tok : pyval) (t : datetime) : TokenManager :=
  {| client_id := client_id self;
     client_secret := client_secret self;
     current_token := tok;
     date_token_fetched := Some t |}.

(** The headers [build_request] sends for the service headers [h]. *)
Definition with_sdk_headers `{Platform} (h : gmap string pyval) (request_id : string)
    (token : pyval) : gmap string pyval :=
  <["X-EBAY-API-IAF-TOKEN" := token]>
    (<["X-EBAY-SDK-REQUEST-ID" := PStr request_id]>
       (<["User-Agent" := PStr UserAgent]> h)).

(** The connection [execute] hands to [build_request]. *)
Definition prepared (self : Connection) (v : option string) (list_nodes : list string)
    : Connection :=
  set_list_nodes (_add_prefix list_nodes v ++ base_list_nodes self) (reset_fields self).

(** A world whose clock is set back by thirty seconds with every recorded
    event. *)
Definition rewinding (start : datetime) (post : post_outcome) (send : send_outcome)
    : Platform :=
  {| clock := λ w, start - Z.of_nat (length w) * secs 30;
     token_endpoint := λ _ _, post;
     transport := λ _ _, send;
     uuid_source := λ _, "8c5e3a52-4b1f-4d59-9f0e-2f6f0c1d7a11";
     response_dom := λ _, Return None;
     UserAgent := "eBaySDK/2.2.0";
     smart_encode := λ s, s;
     smart_decode := λ s, s;
     smart_encode_request_data := λ d, Return d;
     prepare_raises := λ _, None |}.

(** A world whose clock advances by one day with every recorded event. *)
Definition daily (start : datetime) (post : post_outcome) (send : send_outcome) : Platform :=
  {| clock := λ w, start + Z.of_nat (length w) * secs SECONDS_PER_DAY;
     token_endpoint := λ _ _, post;
     transport := λ _ _, send;
     uuid_source := λ _, "8c5e3a52-4b1f-4d59-9f0e-2f6f0c1d7a11";
     response_dom := λ _, Return None;
     UserAgent := "eBaySDK/2.2.0";
     smart_encode := λ s, s;
     smart_decode := λ s, s;
     smart_encode_request_data := λ d, Return d;
     prepare_raises := λ _, None |}.

(** What a call keeps once the request is built: the request, its id and
    its data, the verb, the list-node paths and the token manager. *)
Definition same_request (s s' : Connection) : Prop :=
  request s' = request s
  ∧ _request_id s' = _request_id s
  ∧ _request_dict s' = _request_dict s
  ∧ verb s' = verb s
  ∧ _list_nodes s' = _list_nodes s
  ∧ token_manager s' = token_manager s.

(** The statements of [execute] after [build_request], short of the final
    [return self.response]. *)
Definition execute_rest `{Platform} `{Service} : Py Connection unit :=
  execute_request ;;
  self <- get ;;
  if has_content (response self)
  then process_response ;; error_check
  else py_ret tt.

(** The normalized result [process_response] builds on the connection [s]
    for the raw response [raw], and the connection it leaves. *)
Definition normalized (s : Connection) (raw : RawResponse) : Response :=
  {| resp_obj := raw;
     resp_verb := verb s;
     resp_list_nodes := _list_nodes s;
     resp_datetime_nodes := datetime_nodes s |}.

Definition processed (s : Connection) (raw : RawResponse) : Connection :=
  let s2 := set_response_content (Some (raw_content raw))
              (set_response (Normalized (normalized s raw)) s) in
  if negb (raw_status_code raw =? 200)
  then set_response_error (Some (raw_reason raw)) s2
  else s2.

(** * Properties *)

(** ** Time *)

Lemma total_microseconds_normalised (us : Z) :
  total_microseconds (timedelta_of_microseconds us) = us.
Proof.
  unfold total_microseconds, timedelta_of_microseconds, SECONDS_PER_DAY, US_PER_SECOND.
  cbn [days seconds microseconds].
  assert (Hdays : us / (86400 * 1000000) = us / 1000000 / 86400)
    by (rewrite Z.div_div by lia; reflexivity).
  rewrite Hdays.
  pose proof (Z.div_mod us 1000000 ltac:(lia)) as Hus.
  pose proof (Z.div_mod (us / 1000000) 86400 ltac:(lia)) as Hsec.
  lia.
Qed.

Lemma seconds_of_microseconds (us : Z) :
  seconds (timedelta_of_microseconds us) = (us / US_PER_SECOND) mod SECONDS_PER_DAY.
Proof. reflexivity. Qed.

Lemma seconds_within_ttl (us : Z) :
  0 ≤ us < secs TOKEN_TTL_SECS →
  (TOKEN_TTL_SECS <=? seconds (timedelta_of_microseconds us)) = false.
Proof.
  unfold secs, TOKEN_TTL_SECS, US_PER_SECOND. intros [Hlo Hhi].
  rewrite seconds_of_microseconds. unfold US_PER_SECOND, SECONDS_PER_DAY.
  apply Z.leb_gt.
  assert (0 ≤ us / 1000000) by (apply Z.div_pos; lia).
  assert (us / 1000000 < 60 * 60) by (apply Z.div_lt_upper_bound; lia).
  rewrite Z.mod_small; lia.
Qed.

Lemma seconds_within_day (us : Z) :
  0 ≤ us < secs SECONDS_PER_DAY →
  (TOKEN_TTL_SECS <=? seconds (timedelta_of_microseconds us))
    = bool_decide (secs TOKEN_TTL_SECS ≤ us).
Proof.
  unfold secs, TOKEN_TTL_SECS, US_PER_SECOND, SECONDS_PER_DAY. intros [Hlo Hhi].
  rewrite seconds_of_microseconds. unfold US_PER_SECOND, SECONDS_PER_DAY.
  assert (0 ≤ us / 1000000) by (apply Z.div_pos; lia).
  assert (us / 1000000 < 86400) by (apply Z.div_lt_upper_bound; lia).
  rewrite Z.mod_small by lia.
  case_bool_decide as Hd.
  - apply Z.leb_le. apply Z.div_le_lower_bound; lia.
  - apply Z.leb_gt. apply Z.div_lt_upper_bound; lia.
Qed.

(** ** The token manager, method by method *)

Section TokenFacts.
Context `{Platform}.

Lemma is_expired_eq (self : TokenManager) (w : world) :
  is_expired self w =
    match date_token_fetched self with
    | None => (Raise unset_fetch_time_error, self, w ++ [EvNow (clock w)])
    | Some fetched =>
        (Return (TOKEN_TTL_SECS <=? seconds (datetime_sub (clock w) fetched)),
         self, w ++ [EvNow (clock w)])
    end.
Proof.
  unfold is_expired, datetime_now, py_bind, history, emit, get, py_ret, raise.
  simpl. destruct (date_token_fetched self); reflexivity.
Qed.

(** Less than a day after the fetch, [is_expired] compares the elapsed time
    with the time to live. *)
Lemma is_expired_within_a_day (self : TokenManager) (w : world) (fetched : datetime) :
  date_token_fetched self = Some fetched →
  0 ≤ clock w - fetched < secs SECONDS_PER_DAY →
  is_expired self w
    = (Return (bool_decide (secs TOKEN_TTL_SECS ≤ clock w - fetched)),
       self, w ++ [EvNow (clock w)]).
Proof.
  intros Hdate Hage. rewrite is_expired_eq, Hdate. unfold datetime_sub.
  rewrite seconds_within_day by exact Hage. reflexivity.
Qed.

Lemma send_request_eq (self : TokenManager) (w : world) :
  _send_request self w =
    if is_ascii (client_id self +:+ ":" +:+ client_secret self) then
      match token_endpoint w (token_request_of self) with
      | PostRaises e => (Raise e, self, w ++ [EvTokenPost (token_request_of self)])
      | PostReturns None => (Raise JSONDecodeError, self, w ++ [EvTokenPost (token_request_of self)])
      | PostReturns (Some v) =>
          (getitem v "access_token", self, w ++ [EvTokenPost (token_request_of self)])
      end
    else (Raise UnicodeEncodeError, self, w).
Proof.
  unfold _send_request, requests_post, py_bind, history, emit, get, py_ret, raise, lift.
  simpl. fold (token_request_of self).
  destruct (is_ascii _); [|reflexivity].
  destruct (token_endpoint _ _) as [e|[v|]]; reflexivity.
Qed.

Lemma fetch_and_cache_eq (self : TokenManager) (w : world) :
  fetch_and_cache self w =
    match _send_request self w with
    | (Return token, self1, w1) =>
        (Return token,
         set_date_token_fetched (clock w1) (set_current_token token self1),
         w1 ++ [EvNow (clock w1)])
    | (Raise e, self1, w1) => (Raise e, self1, w1)
    end.
Proof.
  unfold fetch_and_cache, py_bind at 1.
  destruct (_send_request self w) as [[[token|e] self1] w1]; reflexivity.
Qed.

Lemma get_token_eq (self : TokenManager) (w : world) :
  get_token self w =
    if truthy (current_token self) then
      match date_token_fetched self with
      | None => (Raise unset_fetch_time_error, self, w ++ [EvNow (clock w)])
      | Some fetched =>
          if TOKEN_TTL_SECS <=? seconds (datetime_sub (clock w) fetched)
          then fetch_and_cache self (w ++ [EvNow (clock w)])
          else (Return (current_token self), self, w ++ [EvNow (clock w)])
      end
    else fetch_and_cache self w.
Proof.
  unfold get_token, py_bind at 1 2. unfold get at 1.
  destruct (truthy (current_token self)); simpl.
  - rewrite is_expired_eq. destruct (date_token_fetched self) as [fetched|]; [|reflexivity].
    destruct (_ <=? _); reflexivity.
  - reflexivity.
Qed.

Lemma get_token_returns_cached (self : TokenManager) (w : world)
    (tok : pyval) (self1 : TokenManager) (w1 : world) :
  get_token self w = (Return tok, self1, w1) →
  current_token self1 = tok ∧ is_Some (date_token_fetched self1).
Proof.
  rewrite get_token_eq.
  assert (Hfetch : ∀ w0, fetch_and_cache self w0 = (Return tok, self1, w1) →
                         current_token self1 = tok ∧ is_Some (date_token_fetched self1)).
  { intros w0. rewrite fetch_and_cache_eq.
    destruct (_send_request self w0) as [[[token|e] s0] w0']; [|discriminate].
    intros [= <- <- <-]. split; [reflexivity | eexists; reflexivity]. }
  destruct (truthy (current_token self)); [|apply Hfetch].
  destruct (date_token_fetched self) as [fetched|] eqn:Hdate; [|discriminate].
  destruct (_ <=? _); [apply Hfetch|].
  intros [= <- <- <-]. split; [reflexivity | rewrite Hdate; eexists; reflexivity].
Qed.

Lemma network_app_now (w : world) (t : datetime) : network (w ++ [EvNow t]) = network w.
Proof. unfold network. rewrite filter_app. simpl. apply app_nil_r. Qed.

Lemma get_token_failure_keeps_cache (self : TokenManager) (w : world)
    (e : exn) (self1 : TokenManager) (w1 : world) :
  get_token self w = (Raise e, self1, w1) → self1 = self.
Proof.
  rewrite get_token_eq.
  assert (Hfetch : ∀ w0, fetch_and_cache self w0 = (Raise e, self1, w1) → self1 = self).
  { intros w0. rewrite fetch_and_cache_eq, send_request_eq.
    destruct (is_ascii _); [|congruence].
    destruct (token_endpoint _ _) as [e0|[v|]]; try congruence.
    destruct (getitem v _); congruence. }
  destruct (truthy (current_token self)); [|apply Hfetch].
  destruct (date_token_fetched self) as [fetched|]; [|congruence].
  destruct (_ <=? _); [apply Hfetch|congruence].
Qed.

Lemma reachable_stamped (self : TokenManager) :
  reachable self → truthy (current_token self) = true → is_Some (date_token_fetched self).
Proof.
  induction 1 as [id secret|self w o self' w' Hreach IH Hcall].
  - discriminate.
  - destruct o as [tok|e].
    + intros _. eapply get_token_returns_cached, Hcall.
    + apply get_token_failure_keeps_cache in Hcall. subst self'. exact IH.
Qed.

End TokenFacts.

(** C7, amended.  When the first [get_token] returned a token (a value
    [not] does not take for an absent cache) and the second call finds its
    age at least 0 and less than 3600 seconds, the second call returns the
    identical value from the cache; it reads the clock and does nothing
    else, so the token endpoint is not contacted again. *)
Theorem get_token_twice_within_ttl `{Platform} (self : TokenManager) (w : world)
    (tok : pyval) (self1 : TokenManager) (w1 w2 : world) (fetched : datetime) :
  get_token self w = (Return tok, self1, w1) →
  truthy tok = true →
  date_token_fetched self1 = Some fetched →
  0 ≤ clock w2 - fetched < secs TOKEN_TTL_SECS →
  get_token self1 w2 = (Return tok, self1, w2 ++ [EvNow (clock w2)])
  ∧ network (w2 ++ [EvNow (clock w2)]) = network w2.
Proof.
  intros Hfirst Htok Hdate Hage.
  destruct (get_token_returns_cached _ _ _ _ _ Hfirst) as [Hcur _].
  split; [|apply network_app_now].
  rewrite get_token_eq, Hcur, Htok, Hdate.
  unfold datetime_sub. rewrite seconds_within_ttl by exact Hage. reflexivity.
Qed.

Lemma get_token_twice_within_ttl_witness :
  let P := scripted (secs 100) (token_body "v1") ok_response in
  let first := @get_token P (TokenManager_init "id" "secret") [] in
  @get_token P first.1.2 first.2
    = (Return (PStr "v1"), first.1.2, first.2 ++ [EvNow (secs 100)])
  ∧ network (first.2 ++ [EvNow (secs 100)]) = network first.2.
Proof.
  intros P first.
  apply (@get_token_twice_within_ttl P (TokenManager_init "id" "secret") []
           (PStr "v1") first.1.2 first.2 first.2 (secs 100)).
  - vm_compute. reflexivity.
  - reflexivity.
  - reflexivity.
  - vm_compute. split; [discriminate | reflexivity].
Defined.

(** C7 as stated fails: the token endpoint answers with an empty
    [access_token]; the second [get_token], at the same clock reading, takes
    the empty value for an absent cache and posts again. *)
Lemma get_token_twice_empty_token :
  let P := scripted (secs 100) (token_body "") ok_response in
  let self := TokenManager_init "id" "secret" in
  let first := @get_token P self [] in
  let second := @get_token P first.1.2 first.2 in
  first.1.1 = Return (PStr "")
  ∧ date_token_fetched first.1.2 = Some (secs 100)
  ∧ 0 ≤ @clock P first.2 - secs 100 < secs TOKEN_TTL_SECS
  ∧ network second.2 = network first.2 ++ [EvTokenPost (token_request_of self)]
  ∧ ¬ (second = (Return (PStr ""), first.1.2, first.2 ++ [EvNow (secs 100)])
       ∧ network second.2 = network first.2).
Proof.
  intros P self first second.
  split; [reflexivity|]. split; [reflexivity|].
  split; [vm_compute; split; [discriminate | reflexivity]|].
  split; [vm_compute; reflexivity|].
  intros [_ Hsame]. vm_compute in Hsame. discriminate.
Qed.

(** The same happens to a token that is a token when the wall clock is set
    back between the two calls: thirty seconds before its fetch time the
    token counts as expired and the second call posts again. *)
Lemma get_token_twice_clock_set_back :
  let P := rewinding (secs 1000) (token_body "v1") ok_response in
  let self := TokenManager_init "id" "secret" in
  let first := @get_token P self [] in
  let second := @get_token P first.1.2 first.2 in
  first.1.1 = Return (PStr "v1")
  ∧ date_token_fetched first.1.2 = Some (secs 970)
  ∧ @clock P first.2 - secs 970 = - secs 30
  ∧ network second.2 = network first.2 ++ [EvTokenPost (token_request_of self)].
Proof.
  intros P self first second.
  split; [reflexivity|]. split; [reflexivity|].
  split; [reflexivity|]. vm_compute. reflexivity.
Qed.

(** C1.  [is_expired] tests [diff.seconds], the seconds field of the
    normalised difference, not the elapsed time: a token fetched 86410
    seconds ago (one day and ten seconds) is not reported as expired, and
    [get_token] returns it from the cache without fetching. *)
Theorem is_expired_ignores_whole_days :
  let P := scripted (secs 86410) (token_body "fresh") ok_response in
  let self := holding "stale" 0 in
  secs TOKEN_TTL_SECS ≤ secs 86410 - 0
  ∧ @is_expired P self [] = (Return false, self, [EvNow (secs 86410)])
  ∧ @get_token P self [] = (Return (PStr "stale"), self, [EvNow (secs 86410)]).
Proof. vm_compute. split; [discriminate|]. split; reflexivity. Qed.

(** C10.  [is_expired] fails on a manager whose fetch time is unset and
    returns on every other; [get_token] on an absent token goes straight to
    the fetch without calling [is_expired]; every manager a program can
    hold has its fetch time set once it holds a token, so [get_token] never
    ends in the failure of [is_expired]. *)
Theorem is_expired_needs_a_fetch `{Platform} :
  (∀ self w, date_token_fetched self = None →
     is_expired self w = (Raise unset_fetch_time_error, self, w ++ [EvNow (clock w)]))
  ∧ (∀ self w fetched, date_token_fetched self = Some fetched →
       ∃ expired, is_expired self w = (Return expired, self, w ++ [EvNow (clock w)]))
  ∧ (∀ self w, truthy (current_token self) = false →
       get_token self w = fetch_and_cache self w)
  ∧ (∀ self, reachable self → truthy (current_token self) = true →
       is_Some (date_token_fetched self))
  ∧ (∀ self w, reachable self →
       get_token self w ≠ (Raise unset_fetch_time_error, self, w ++ [EvNow (clock w)])).
Proof.
  split; [|split; [|split; [|split]]].
  - intros self w Hdate. rewrite is_expired_eq, Hdate. reflexivity.
  - intros self w fetched Hdate. rewrite is_expired_eq, Hdate. eexists. reflexivity.
  - intros self w Htok. rewrite get_token_eq, Htok. reflexivity.
  - apply reachable_stamped.
  - intros self w Hreach. rewrite get_token_eq.
    assert (Hfetch : ∀ w0, (w0 = w ∨ w0 = w ++ [EvNow (clock w)]) →
      fetch_and_cache self w0 ≠ (Raise unset_fetch_time_error, self, w ++ [EvNow (clock w)])).
    { intros w0 Hw0. rewrite fetch_and_cache_eq, send_request_eq.
      destruct (is_ascii _).
      - assert (Hne : w0 ++ [EvTokenPost (token_request_of self)] ≠ w ++ [EvNow (clock w)]).
        { destruct Hw0 as [-> | ->].
          - intros Heq. apply app_inv_head in Heq. discriminate.
          - rewrite <- app_assoc. intros Heq. apply app_inv_head in Heq. discriminate. }
        destruct (token_endpoint _ _) as [e0|[v|]]; try congruence.
        destruct (getitem v _); congruence.
      - discriminate. }
    destruct (truthy (current_token self)) eqn:Htok; [|apply Hfetch; by left].
    destruct (reachable_stamped self Hreach Htok) as [fetched ->].
    destruct (_ <=? _); [apply Hfetch; by right|discriminate].
Qed.

Lemma is_expired_needs_a_fetch_witness :
  let P := scripted 0 (token_body "v1") ok_response in
  @is_expired P (TokenManager_init "id" "secret") []
    = (Raise unset_fetch_time_error, TokenManager_init "id" "secret", [EvNow 0])
  ∧ @get_token P (TokenManager_init "id" "secret") []
    = @fetch_and_cache P (TokenManager_init "id" "secret") [].
Proof.
  intros P. split.
  - apply (proj1 (@is_expired_needs_a_fetch P)). reflexivity.
  - apply (proj1 (proj2 (proj2 (@is_expired_needs_a_fetch P)))). reflexivity.
Defined.

(** C2.  The refresh fails, with the exception raised underneath it (the
    CredentialError of the spec), when the call to the token endpoint
    raises, when the body is not valid JSON, and when the decoded body has
    no [access_token] field; the failure reaches the caller of [get_token]
    and leaves the manager as it was.  When the refresh returns, it returns
    the [access_token] field of the decoded body. *)
Theorem token_refresh_outcome `{Platform} (self : TokenManager) (w : world) :
  let req := token_request_of self in
  (∀ e, token_endpoint w req = PostRaises e →
     ∃ e' w', _send_request self w = (Raise e', self, w'))
  ∧ (token_endpoint w req = PostReturns None →
     ∃ e' w', _send_request self w = (Raise e', self, w'))
  ∧ (∀ body, token_endpoint w req = PostReturns (Some body) →
       (∀ d, body = PDict d → dict_lookup "access_token" d = None) →
       ∃ e' w', _send_request self w = (Raise e', self, w'))
  ∧ (∀ e w', _send_request self w = (Raise e, self, w') →
       truthy (current_token self) = false →
       get_token self w = (Raise e, self, w'))
  ∧ (∀ token self' w', _send_request self w = (Return token, self', w') →
       ∃ d, token_endpoint w req = PostReturns (Some (PDict d))
            ∧ dict_lookup "access_token" d = Some token)
  ∧ (∀ d token, is_ascii (client_id self +:+ ":" +:+ client_secret self) = true →
       token_endpoint w req = PostReturns (Some (PDict d)) →
       dict_lookup "access_token" d = Some token →
       _send_request self w = (Return token, self, w ++ [EvTokenPost req])).
Proof.
  intros req. subst req. rewrite send_request_eq.
  repeat split.
  - intros e He. rewrite He. destruct (is_ascii _); eauto.
  - intros He. rewrite He. destruct (is_ascii _); eauto.
  - intros body He Habsent. rewrite He. destruct (is_ascii _); [|eauto].
    destruct body as [| | | | |l|d]; simpl; eauto.
    rewrite (Habsent d eq_refl). eauto.
  - intros e w' Hfail Htok.
    rewrite get_token_eq, Htok, fetch_and_cache_eq, send_request_eq, Hfail. reflexivity.
  - intros token self' w'. destruct (is_ascii _); [|discriminate].
    destruct (token_endpoint _ _) as [e0|[body|]]; try discriminate.
    destruct body as [| | | | |l|d]; simpl; try discriminate.
    destruct (dict_lookup _ d) as [x|] eqn:Hx; [|discriminate].
    intros [= <- _ _]. eauto.
  - intros d token Hascii He Hfield. rewrite Hascii, He. simpl. rewrite Hfield. reflexivity.
Qed.

Lemma token_refresh_outcome_witness :
  let P := scripted 0 (token_body "v1") ok_response in
  @_send_request P (TokenManager_init "id" "secret") []
    = (Return (PStr "v1"), TokenManager_init "id" "secret",
       [EvTokenPost (token_request_of (TokenManager_init "id" "secret"))]).
Proof.
  intros P.
  apply (proj2 (proj2 (proj2 (proj2 (proj2
           (@token_refresh_outcome P (TokenManager_init "id" "secret") [])))))
           [("access_token", PStr "v1"); ("expires_in", PInt 7200)] (PStr "v1")).
  - reflexivity.
  - reflexivity.
  - reflexivity.
Defined.

(** ** The connection *)

Section ConnectionFacts.
Context `{Platform} `{Service}.

Lemma process_response_eq (self : Connection) (w : world) (raw : RawResponse) :
  response self = Transport raw →
  process_response self w =
    (Return tt,
     let r := {| resp_obj := raw; resp_verb := verb self;
                 resp_list_nodes := _list_nodes self;
                 resp_datetime_nodes := datetime_nodes self |} in
     let s := set_response_content (Some (raw_content raw))
                (set_response (Normalized r) self) in
     if negb (raw_status_code raw =? 200)
     then set_response_error (Some (raw_reason raw)) s
     else s,
     w ++ [EvSessionClose]).
Proof.
  intros Hresp. unfold process_response, py_bind, get, modify, emit, py_ret.
  rewrite Hresp. simpl. unfold status_code. simpl.
  destruct (negb _); reflexivity.
Qed.

Lemma error_eq (self : Connection) (w : world) :
  error self w =
    match _get_resp_body_errors self with
    | Raise e => (Raise e, self, w)
    | Return body_errors =>
        let error_array :=
          match _response_error self with
          | Some e => if str_truthy e then [e] else []
          | None => []
          end ++ body_errors in
        (Return
           (if (0 <? length error_array)%nat
            then Some (str_of_opt (verb self) +:+ ": "
                       +:+ join ", " (map (λ e, smart_decode (smart_encode e)) error_array))
            else None),
         self, w)
    end.
Proof.
  unfold error, py_bind, get, lift, py_ret.
  destruct (_get_resp_body_errors self) as [body|e]; [|reflexivity].
  simpl. destruct (0 <? _)%nat; reflexivity.
Qed.

End ConnectionFacts.

Lemma error_string_nonempty (v : option string) (rest : string) :
  opt_truthy (Some (str_of_opt v +:+ ": " +:+ rest)) = true.
Proof.
  unfold opt_truthy, str_truthy. destruct (str_of_opt v); reflexivity.
Qed.

Section ErrorFacts.
Context `{Platform} `{Service}.

Lemma processed_response_error (self s : Connection) (w w1 : world) (raw : RawResponse) :
  response self = Transport raw →
  process_response self w = (Return tt, s, w1) →
  _response_error s =
    (if negb (raw_status_code raw =? 200) then Some (raw_reason raw)
     else _response_error self)
  ∧ verb s = verb self
  ∧ config s = config self
  ∧ response s = Normalized {| resp_obj := raw; resp_verb := verb self;
                               resp_list_nodes := _list_nodes self;
                               resp_datetime_nodes := datetime_nodes self |}
  ∧ w1 = w ++ [EvSessionClose].
Proof.
  intros Hresp. rewrite (process_response_eq self w raw Hresp).
  intros [= <- <-]. destruct self. simpl in *.
  destruct (negb _); simpl; auto.
Qed.

End ErrorFacts.





(** ** List-node paths *)

Lemma startswith_app (a b : string) : startswith (a +:+ b) a = true.
Proof.
  induction a as [|c a IH]; [reflexivity|].
  change (String c a +:+ b) with (String c (a +:+ b)). simpl.
  rewrite bool_decide_eq_true_2 by reflexivity. exact IH.
Qed.

Lemma add_prefix_loop (v : string) (nodes : list string) (n : nat) :
  (n ≤ length nodes)%nat →
  foldl (add_prefix_at v) nodes (seq 0 n)
    = map (with_prefix v) (take n nodes) ++ drop n nodes.
Proof.
  induction n as [|n IH]; intros Hn.
  - simpl. rewrite drop_0. reflexivity.
  - rewrite seq_S, foldl_app, IH by lia. simpl.
    destruct (lookup_lt_is_Some_2 nodes n ltac:(lia)) as [node Hnode].
    assert (Hlen : length (map (with_prefix v) (take n nodes)) = n)
      by (rewrite length_map, length_take; lia).
    unfold add_prefix_at.
    rewrite lookup_app_r by lia. rewrite Hlen, Nat.sub_diag, lookup_drop, Nat.add_0_r, Hnode.
    rewrite (take_S_r _ _ _ Hnode), map_app, <- app_assoc. simpl.
    rewrite (drop_S _ _ _ Hnode).
    assert (Hone : with_prefix v node =
                   if startswith node (lower v) then node
                   else lower v +:+ "response." +:+ lower node) by reflexivity.
    rewrite Hone. destruct (startswith node (lower v)); simpl; [reflexivity|].
    rewrite insert_app_r_alt by lia. rewrite Hlen, Nat.sub_diag. reflexivity.
Qed.

(** C5.  [_add_prefix] leaves a path that starts with the lowercase verb as
    it is and rewrites any other to the lowercase verb, ["response."] and the
    lowercase path; afterwards every path starts with the lowercase verb.
    For GetItem, ["item.variations"] becomes
    ["getitemresponse.item.variations"] and ["getitemresponse.item"] stays. *)
Theorem add_prefix_normalizes (nodes : list string) (v : string) :
  _add_prefix nodes (Some v)
    = map (λ node, if startswith node (lower v) then node
                   else lower v +:+ "response." +:+ lower node) nodes
  ∧ Forall (λ node, startswith node (lower v) = true) (_add_prefix nodes (Some v))
  ∧ _add_prefix ["item.variations"] (Some "GetItem") = ["getitemresponse.item.variations"]
  ∧ _add_prefix ["getitemresponse.item"] (Some "GetItem") = ["getitemresponse.item"]
  ∧ _add_prefix nodes None = nodes.
Proof.
  assert (Hmap : _add_prefix nodes (Some v) = map (with_prefix v) nodes).
  { unfold _add_prefix. simpl. unfold str_truthy. case_bool_decide as Hv; simpl.
    - subst v. symmetry. apply map_id.
    - rewrite add_prefix_loop by lia. rewrite firstn_all, drop_all, app_nil_r. reflexivity. }
  split; [exact Hmap|]. split; [|repeat split; reflexivity].
  rewrite Hmap. apply Forall_forall. intros node' Hin.
  apply list_elem_of_fmap in Hin as (node & -> & _).
  unfold with_prefix. destruct (startswith node (lower v)) eqn:Hsw; [exact Hsw|].
  apply startswith_app.
Qed.

(** ** The constructor *)

Lemma init_rejects_falsy_credentials (method_ : string) (proxy_host_ : option string)
    (timeout_ proxy_port_ : Z) (parallel_ : option nat) (escape_xml_ : bool)
    (client_id_ client_secret_ : option string) (w : world) :
  opt_truthy client_id_ = false ∨ opt_truthy client_secret_ = false →
  BaseConnection_init method_ proxy_host_ timeout_ proxy_port_ parallel_ escape_xml_
    client_id_ client_secret_ tt w
  = (Raise (ValueError "<client_id> and <client_secret> must be provided for API access"),
     tt, w).
Proof.
  intros Hmissing. unfold BaseConnection_init.
  destruct Hmissing as [-> | ->]; simpl; [reflexivity|].
  rewrite orb_true_r. reflexivity.
Qed.

(** C4.  Without [client_id] or without [client_secret] the constructor
    raises (the ValueError the spec calls ConfigurationError) and the world
    is as before: no token fetch, no API request, no connection to call. *)
Theorem init_requires_credentials (method_ : string) (proxy_host_ : option string)
    (timeout_ proxy_port_ : Z) (parallel_ : option nat) (escape_xml_ : bool)
    (client_id_ client_secret_ : option string) (w : world) :
  client_id_ = None ∨ client_secret_ = None →
  BaseConnection_init method_ proxy_host_ timeout_ proxy_port_ parallel_ escape_xml_
    client_id_ client_secret_ tt w
  = (Raise (ValueError "<client_id> and <client_secret> must be provided for API access"),
     tt, w).
Proof.
  intros Hmissing.
  apply init_rejects_falsy_credentials. destruct Hmissing as [-> | ->]; auto.
Qed.

Lemma init_requires_credentials_witness :
  BaseConnection_init "GET" None 20 80 None false (Some "id") None tt []
  = (Raise (ValueError "<client_id> and <client_secret> must be provided for API access"),
     tt, []).
Proof.
  apply (init_requires_credentials "GET" None 20 80 None false (Some "id") None []).
  right. reflexivity.
Defined.

Section ExecuteFacts.
Context `{Platform} `{Service}.

Lemma execute_eq (v : option string) (data : pyval) (list_nodes : list string)
    (verb_attrs : pyval) (files : option (gmap string string))
    (self : Connection) (w : world) :
  execute v data list_nodes verb_attrs files self w =
    match execute_send v data list_nodes verb_attrs files self w with
    | (Raise e, s1, w1) => (Raise e, s1, w1)
    | (Return _, s1, w1) =>
        if has_content (response s1) then
          match process_response s1 w1 with
          | (Raise e, s2, w2) => (Raise e, s2, w2)
          | (Return _, s2, w2) =>
              match error_check s2 w2 with
              | (Raise e, s3, w3) => (Raise e, s3, w3)
              | (Return _, s3, w3) => (Return (response s3), s3, w3)
              end
          end
        else (Return (response s1), s1, w1)
    end.
Proof.
  unfold execute, execute_send, execute_build, py_bind, _reset, modify, get, gets, py_ret.
  destruct (build_request _ _ _ _ _ _) as [[[[]|e] s0] w0]; [|reflexivity].
  destruct (execute_request s0 w0) as [[[[]|e] s1] w1]; [|reflexivity].
  destruct (has_content (response s1)); [|reflexivity].
  destruct (process_response s1 w1) as [[[[]|e] s2] w2]; [|reflexivity].
  destruct (error_check s2 w2) as [[[[]|e] s3] w3]; reflexivity.
Qed.

Lemma execute_send_eq (v : option string) (data : pyval) (list_nodes : list string)
    (verb_attrs : pyval) (files : option (gmap string string))
    (self : Connection) (w : world) :
  execute_send v data list_nodes verb_attrs files self w =
    match execute_build v data list_nodes verb_attrs files self w with
    | (Raise e, s0, w0) => (Raise e, s0, w0)
    | (Return _, s0, w0) => execute_request s0 w0
    end.
Proof.
  unfold execute_send, py_bind at 1.
  destruct (execute_build _ _ _ _ _ _ _) as [[[[]|e] s0] w0]; reflexivity.
Qed.

Lemma error_check_eq (self : Connection) (w : world) :
  error_check self w =
    match error self w with
    | (Raise e, s, w') => (Raise e, s, w')
    | (Return estr, s, w') =>
        if opt_truthy estr then
          match config s with
          | None => (Raise (AttributeError "NoneType object has no attribute get"), s, w')
          | Some c =>
              if default true (cfg_errors c)
              then (Raise (ConnectionError (default "" estr) (response s)), s, w')
              else (Return tt, s, w')
          end
        else (Return tt, s, w')
    end.
Proof.
  unfold error_check, py_bind at 1.
  destruct (error self w) as [[[estr|e] s] w']; [|reflexivity].
  destruct (opt_truthy estr); [|reflexivity].
  unfold py_bind, get, raise, py_ret. destruct (config s) as [c|]; [|reflexivity].
  destruct (default true (cfg_errors c)); reflexivity.
Qed.

End ExecuteFacts.

Lemma quiet_refl (w : world) : quiet w w.
Proof. split; reflexivity. Qed.

Lemma quiet_snoc (w w' : world) (e : event) :
  is_send e = false → is_close e = false → quiet w w' → quiet w (w' ++ [e]).
Proof.
  intros Hsend Hclose [Hs Hc]. unfold quiet, sends, closes in *.
  rewrite !filter_app, Hs, Hc. simpl.
  rewrite !filter_cons_False by (rewrite ?Hsend, ?Hclose; discriminate).
  rewrite !filter_nil, !app_nil_r. split; reflexivity.
Qed.

Ltac frame_goals :=
  simpl;
  repeat match goal with |- _ ∧ _ => split end;
  first [ reflexivity | assumption | discriminate | intros _; eexists; reflexivity ].

Section QuietFacts.
Context `{Platform} `{Service}.

Lemma send_request_quiet (tm : TokenManager) (w0 w : world) o tm' w' :
  quiet w0 w → _send_request tm w = (o, tm', w') → quiet w0 w'.
Proof.
  intros Hq. rewrite send_request_eq.
  destruct (is_ascii _); [|intros [= <- <- <-]; exact Hq].
  assert (quiet w0 (w ++ [EvTokenPost (token_request_of tm)]))
    by (apply quiet_snoc; auto).
  destruct (token_endpoint _ _) as [e0|[body|]]; intros [= <- <- <-]; assumption.
Qed.

Lemma fetch_and_cache_quiet (tm : TokenManager) (w0 w : world) o tm' w' :
  quiet w0 w → fetch_and_cache tm w = (o, tm', w') → quiet w0 w'.
Proof.
  intros Hq. rewrite fetch_and_cache_eq.
  destruct (_send_request tm w) as [[[token|e] tm1] w1] eqn:Hsend;
    pose proof (send_request_quiet _ _ _ _ _ _ Hq Hsend);
    intros [= <- <- <-]; [apply quiet_snoc|]; auto.
Qed.

Lemma get_token_quiet (tm : TokenManager) (w0 w : world) o tm' w' :
  quiet w0 w → get_token tm w = (o, tm', w') → quiet w0 w'.
Proof.
  intros Hq. rewrite get_token_eq.
  assert (quiet w0 (w ++ [EvNow (clock w)])) by (apply quiet_snoc; auto).
  destruct (truthy (current_token tm)); [|apply fetch_and_cache_quiet; assumption].
  destruct (date_token_fetched tm) as [fetched|]; [|intros [= <- <- <-]; assumption].
  destruct (_ <=? _); [apply fetch_and_cache_quiet; assumption|].
  intros [= <- <- <-]; assumption.
Qed.

Lemma build_request_frame (v : option string) (data verb_attrs : pyval)
    (files : option (gmap string string)) (self : Connection) (w0 w : world) o s w' :
  quiet w0 w →
  build_request v data verb_attrs files self w = (o, s, w') →
  parallel s = parallel self
  ∧ response s = response self
  ∧ _response_content s = _response_content self
  ∧ _response_error s = _response_error self
  ∧ quiet w0 w'
  ∧ (o = Return tt → is_Some (request s)).
Proof.
  intros Hq.
  destruct self as [tm resp req vb cfg meth tmo ph pp esc dn ln prx par bln rid rdict
                    rcontent rerr berrs bwarns codes].
  unfold build_request, uuid4, build_request_url, del_item, zoom, lift,
    py_bind, modify, get, history, emit, py_ret, raise. simpl.
  assert (Hq1 : quiet w0 (w ++ [EvUuid4 (uuid_source w)])) by (apply quiet_snoc; auto).
  destruct cfg as [c|]; simpl.
  2: { intros [= <- <- <-]. frame_goals. }
  destruct (get_token tm _) as [[[token|e] tm1] w1] eqn:Htok;
    pose proof (get_token_quiet _ _ _ _ _ _ Hq1 Htok) as Hq2; simpl.
  2: { intros [= <- <- <-]. frame_goals. }
  destruct (files_truthy files); simpl.
  - destruct (_ !! "Content-Type"); simpl; [|intros [= <- <- <-]; frame_goals].
    destruct (smart_encode_request_data _) as [encoded|e]; simpl;
      [|intros [= <- <- <-]; frame_goals].
    destruct (prepare_raises _) as [e|]; simpl; intros [= <- <- <-]; frame_goals.
  - destruct (smart_encode_request_data _) as [encoded|e]; simpl;
      [|intros [= <- <- <-]; frame_goals].
    destruct (prepare_raises _) as [e|]; simpl; intros [= <- <- <-]; frame_goals.
Qed.

Lemma execute_build_frame (v : option string) (data : pyval) (list_nodes : list string)
    (verb_attrs : pyval) (files : option (gmap string string))
    (self : Connection) (w : world) o s w' :
  execute_build v data list_nodes verb_attrs files self w = (o, s, w') →
  parallel s = parallel self
  ∧ response s = NoResponse
  ∧ _response_content s = None
  ∧ _response_error s = None
  ∧ quiet w w'
  ∧ (o = Return tt → is_Some (request s)).
Proof.
  unfold execute_build, py_bind at 1 2 3 4. unfold _reset, modify. cbv beta iota.
  intros Hbuild.
  apply (build_request_frame _ _ _ _ _ w w) in Hbuild; [|apply quiet_refl].
  destruct self; simpl in *. exact Hbuild.
Qed.

End QuietFacts.

(** C9.  With a parallel context, once the request is built [execute]
    hands the connection with its built request to the parallel queue and
    returns no response: [self.response], the response content and the
    response error stay unset, nothing is sent to the API, no session is
    closed by response processing, and no error check raises. *)
Theorem execute_parallel_enqueues `{Platform} `{Service}
    (v : option string) (data : pyval) (list_nodes : list string) (verb_attrs : pyval)
    (files : option (gmap string string)) (self s1 : Connection) (w w1 : world) (p : nat) :
  parallel self = Some p →
  execute_build v data list_nodes verb_attrs files self w = (Return tt, s1, w1) →
  execute v data list_nodes verb_attrs files self w
    = (Return NoResponse, s1, w1 ++ [EvAddRequest (request s1)])
  ∧ is_Some (request s1)
  ∧ response s1 = NoResponse
  ∧ _response_content s1 = None
  ∧ _response_error s1 = None
  ∧ sends (w1 ++ [EvAddRequest (request s1)]) = sends w
  ∧ closes (w1 ++ [EvAddRequest (request s1)]) = closes w.
Proof.
  intros Hpar Hbuild.
  destruct (execute_build_frame _ _ _ _ _ _ _ _ _ _ Hbuild)
    as (Hpar1 & Hresp & Hcontent & Herr & Hquiet & Hreq).
  destruct (Hreq eq_refl) as [req Hreq1].
  assert (Hsend : execute_request s1 w1 = (Return tt, s1, w1 ++ [EvAddRequest (request s1)])).
  { unfold execute_request, py_bind, get, emit. rewrite Hreq1, Hpar1, Hpar. reflexivity. }
  assert (Hq : quiet w (w1 ++ [EvAddRequest (request s1)])) by (apply quiet_snoc; auto).
  destruct Hq as [Hsends Hcloses].
  repeat split; try assumption; [|eexists; exact Hreq1].
  rewrite execute_eq, execute_send_eq, Hbuild, Hsend, Hresp. reflexivity.
Qed.

Lemma execute_parallel_enqueues_witness :
  let P := scripted (secs 100) (token_body "v1") ok_response in
  let S := reporting [] in
  let self := connection_of (TokenManager_init "id" "secret")
                (Some (trading_config None)) (Some 1%nat) in
  let built := @execute_build P S (Some "GetItem") (PDict []) ["item.variations"] PNone None
                 self [] in
  @execute P S (Some "GetItem") (PDict []) ["item.variations"] PNone None self []
    = (Return NoResponse, built.1.2, built.2 ++ [EvAddRequest (request built.1.2)])
  ∧ is_Some (request built.1.2)
  ∧ response built.1.2 = NoResponse
  ∧ _response_content built.1.2 = None
  ∧ _response_error built.1.2 = None
  ∧ sends (built.2 ++ [EvAddRequest (request built.1.2)]) = sends []
  ∧ closes (built.2 ++ [EvAddRequest (request built.1.2)]) = closes [].
Proof.
  intros P S self built.
  apply (@execute_parallel_enqueues P S (Some "GetItem") (PDict []) ["item.variations"]
           PNone None self built.1.2 [] built.2 1%nat).
  - reflexivity.
  - vm_compute. reflexivity.
Defined.

(** C6.  When the request was sent, the response processed and [error]
    gives a message: with [errors] false [execute] returns the normalized
    result and [error] still gives the message on the connection; with
    [errors] true or unset it raises one ConnectionError that carries the
    message and the normalized result. *)
Theorem errors_flag_decides_raise `{Platform} `{Service}
    (v : option string) (data : pyval) (list_nodes : list string) (verb_attrs : pyval)
    (files : option (gmap string string)) (self s1 s2 : Connection) (w w1 w2 : world)
    (raw : RawResponse) (c : Config) (msg : string) :
  execute_send v data list_nodes verb_attrs files self w = (Return tt, s1, w1) →
  response s1 = Transport raw →
  process_response s1 w1 = (Return tt, s2, w2) →
  config s2 = Some c →
  error s2 w2 = (Return (Some msg), s2, w2) →
  (∃ r, response s2 = Normalized r ∧ resp_obj r = raw)
  ∧ (cfg_errors c = Some false →
     execute v data list_nodes verb_attrs files self w = (Return (response s2), s2, w2)
     ∧ error s2 w2 = (Return (Some msg), s2, w2))
  ∧ (cfg_errors c = Some true ∨ cfg_errors c = None →
     execute v data list_nodes verb_attrs files self w
       = (Raise (ConnectionError msg (response s2)), s2, w2)).
Proof.
  intros Hsent Hraw Hproc Hcfg Herror.
  destruct (processed_response_error s1 s2 w1 w2 raw Hraw Hproc) as (_ & _ & _ & Hnorm & _).
  assert (Htruthy : opt_truthy (Some msg) = true).
  { rewrite error_eq in Herror.
    destruct (_get_resp_body_errors s2) as [body|e]; [|discriminate].
    cbv zeta in Herror. destruct (0 <? _)%nat; [|discriminate].
    injection Herror as <-. apply error_string_nonempty. }
  assert (Hexec : execute v data list_nodes verb_attrs files self w =
            if default true (cfg_errors c)
            then (Raise (ConnectionError msg (response s2)), s2, w2)
            else (Return (response s2), s2, w2)).
  { rewrite execute_eq, Hsent, Hraw. simpl. rewrite Hproc, error_check_eq, Herror, Htruthy, Hcfg.
    destruct (default true (cfg_errors c)); reflexivity. }
  split; [eexists; split; [exact Hnorm | reflexivity]|]. split.
  - intros Hflag. rewrite Hexec, Hflag. split; [reflexivity | exact Herror].
  - intros [Hflag | Hflag]; rewrite Hexec, Hflag; reflexivity.
Qed.

Lemma errors_flag_decides_raise_witness :
  let P := scripted (secs 100) (token_body "v1") ok_response in
  let S := reporting ["Invalid ID"] in
  let quiet_conn := connection_of (TokenManager_init "id" "secret")
                      (Some (trading_config (Some false))) None in
  let loud_conn := connection_of (TokenManager_init "id" "secret")
                     (Some (trading_config None)) None in
  let sent c := @execute_send P S (Some "GetItem") (PDict []) [] PNone None c [] in
  let done c := process_response (sent c).1.2 (sent c).2 in
  (@execute P S (Some "GetItem") (PDict []) [] PNone None quiet_conn []
     = (Return (response (done quiet_conn).1.2), (done quiet_conn).1.2, (done quiet_conn).2)
   ∧ @error P S (done quiet_conn).1.2 (done quiet_conn).2
     = (Return (Some "GetItem: Invalid ID"), (done quiet_conn).1.2, (done quiet_conn).2))
  ∧ @execute P S (Some "GetItem") (PDict []) [] PNone None loud_conn []
     = (Raise (ConnectionError "GetItem: Invalid ID" (response (done loud_conn).1.2)),
        (done loud_conn).1.2, (done loud_conn).2).
Proof.
  intros P S quiet_conn loud_conn sent done. split.
  - apply (proj1 (proj2 (@errors_flag_decides_raise P S (Some "GetItem") (PDict []) [] PNone None
             quiet_conn (sent quiet_conn).1.2 (done quiet_conn).1.2
             [] (sent quiet_conn).2 (done quiet_conn).2
             {| raw_status_code := 200; raw_reason := "OK";
                raw_content := "<GetItemResponse/>" |}
             (trading_config (Some false)) "GetItem: Invalid ID"
             ltac:(vm_compute; reflexivity) ltac:(vm_compute; reflexivity)
             ltac:(vm_compute; reflexivity) ltac:(vm_compute; reflexivity)
             ltac:(vm_compute; reflexivity)))).
    reflexivity.
  - apply (proj2 (proj2 (@errors_flag_decides_raise P S (Some "GetItem") (PDict []) [] PNone None
             loud_conn (sent loud_conn).1.2 (done loud_conn).1.2
             [] (sent loud_conn).2 (done loud_conn).2
             {| raw_status_code := 200; raw_reason := "OK";
                raw_content := "<GetItemResponse/>" |}
             (trading_config None) "GetItem: Invalid ID"
             ltac:(vm_compute; reflexivity) ltac:(vm_compute; reflexivity)
             ltac:(vm_compute; reflexivity) ltac:(vm_compute; reflexivity)
             ltac:(vm_compute; reflexivity)))).
    right. reflexivity.
Defined.

(** C8.  On the base class, whose request headers hold no Content-Type,
    [build_request] with attachments raises KeyError at the removal of the
    Content-Type header, and so does [execute], before anything is sent. *)
Theorem build_request_files_need_content_type :
  let P := scripted (secs 100) (token_body "v1") ok_response in
  let S := @BaseService P in
  let self := connection_of (TokenManager_init "id" "secret")
                (Some (trading_config None)) None in
  let files := Some (<["image" := "picture.jpg"]> (∅ : gmap string string)) in
  @build_request_headers S self (Some "UploadSiteHostedPictures") !! "Content-Type" = None
  ∧ (@build_request P S (Some "UploadSiteHostedPictures") (PDict []) PNone files self []).1.1
    = Raise (KeyError "Content-Type")
  ∧ (@execute P S (Some "UploadSiteHostedPictures") (PDict []) [] PNone files self []).1.1
    = Raise (KeyError "Content-Type")
  ∧ sends (@execute P S (Some "UploadSiteHostedPictures") (PDict []) [] PNone files self []).2
    = [].
Proof. vm_compute. repeat split; reflexivity. Qed.

(** * Further properties *)

(** ** The token cache *)

Lemma token_posts_snoc (w : world) (e : event) :
  token_posts (w ++ [e]) = token_posts w ++ (if is_token_post e then [e] else []).
Proof.
  unfold token_posts. rewrite filter_app. f_equal.
  destruct (is_token_post e) eqn:He.
  - rewrite filter_cons_True by exact He. reflexivity.
  - rewrite filter_cons_False by (rewrite He; discriminate). reflexivity.
Qed.

(** X1.  An expired token (age from 3600 seconds up to a day) is replaced:
    [get_token] reads the clock, posts once to the token endpoint, caches
    the [access_token] of the answer with the clock reading taken after the
    post, and returns it. *)
Theorem get_token_refreshes_when_expired `{Platform} (self : TokenManager) (w : world)
    (fetched : datetime) (d : list (string * pyval)) (tok : pyval) :
  truthy (current_token self) = true →
  date_token_fetched self = Some fetched →
  secs TOKEN_TTL_SECS ≤ clock w - fetched < secs SECONDS_PER_DAY →
  is_ascii (client_id self +:+ ":" +:+ client_secret self) = true →
  let w1 := w ++ [EvNow (clock w)] in
  let w2 := w1 ++ [EvTokenPost (token_request_of self)] in
  token_endpoint w1 (token_request_of self) = PostReturns (Some (PDict d)) →
  dict_lookup "access_token" d = Some tok →
  get_token self w = (Return tok, refreshed self tok (clock w2), w2 ++ [EvNow (clock w2)])
  ∧ token_posts (w2 ++ [EvNow (clock w2)])
    = token_posts w ++ [EvTokenPost (token_request_of self)].
Proof.
  intros Htok Hdate Hage Hascii w1 w2 Hpost Hfield. split.
  - rewrite get_token_eq, Htok, Hdate. unfold datetime_sub.
    assert (Hday : 0 ≤ clock w - fetched < secs SECONDS_PER_DAY)
      by (revert Hage; unfold secs, TOKEN_TTL_SECS, US_PER_SECOND; lia).
    rewrite seconds_within_day by exact Hday.
    rewrite bool_decide_eq_true_2 by apply Hage.
    rewrite fetch_and_cache_eq, send_request_eq, Hascii. fold w1. rewrite Hpost.
    simpl. rewrite Hfield. reflexivity.
  - subst w2 w1. rewrite !token_posts_snoc. simpl. rewrite !app_nil_r. reflexivity.
Qed.

Lemma get_token_refreshes_when_expired_witness :
  let P := scripted (secs 4000) (token_body "v2") ok_response in
  let self := holding "v1" 0 in
  @get_token P self []
    = (Return (PStr "v2"), refreshed self (PStr "v2") (secs 4000),
       [EvNow (secs 4000); EvTokenPost (token_request_of self); EvNow (secs 4000)])
  ∧ token_posts [EvNow (secs 4000); EvTokenPost (token_request_of self); EvNow (secs 4000)]
    = [EvTokenPost (token_request_of self)].
Proof.
  intros P self.
  apply (@get_token_refreshes_when_expired P self [] 0
           [("access_token", PStr "v2"); ("expires_in", PInt 7200)] (PStr "v2")).
  - reflexivity.
  - reflexivity.
  - vm_compute. split; [discriminate | reflexivity].
  - reflexivity.
  - reflexivity.
  - reflexivity.
Defined.

(** X2.  With no token cached, [get_token] posts to the token endpoint
    without reading the clock first, then caches the token with the time
    read after the post and returns it. *)
Theorem get_token_first_use `{Platform} (self : TokenManager) (w : world)
    (d : list (string * pyval)) (tok : pyval) :
  truthy (current_token self) = false →
  is_ascii (client_id self +:+ ":" +:+ client_secret self) = true →
  let w1 := w ++ [EvTokenPost (token_request_of self)] in
  token_endpoint w (token_request_of self) = PostReturns (Some (PDict d)) →
  dict_lookup "access_token" d = Some tok →
  get_token self w = (Return tok, refreshed self tok (clock w1), w1 ++ [EvNow (clock w1)]).
Proof.
  intros Htok Hascii w1 Hpost Hfield.
  rewrite get_token_eq, Htok, fetch_and_cache_eq, send_request_eq, Hascii, Hpost.
  simpl. rewrite Hfield. reflexivity.
Qed.

Lemma get_token_first_use_witness :
  let P := scripted (secs 7) (token_body "v1") ok_response in
  let self := TokenManager_init "id" "secret" in
  @get_token P self []
    = (Return (PStr "v1"), refreshed self (PStr "v1") (secs 7),
       [EvTokenPost (token_request_of self); EvNow (secs 7)]).
Proof.
  intros P self.
  apply (@get_token_first_use P self []
           [("access_token", PStr "v1"); ("expires_in", PInt 7200)] (PStr "v1"));
    reflexivity.
Defined.

Lemma failed_get_token_posts `{Platform} (self self' : TokenManager) (w w' : world)
    (e : exn) :
  get_token self w = (Raise e, self', w') →
  token_posts w' = token_posts w
  ∨ token_posts w' = token_posts w ++ [EvTokenPost (token_request_of self)].
Proof.
  rewrite get_token_eq.
  assert (Hfetch : ∀ w0, token_posts w0 = token_posts w →
            fetch_and_cache self w0 = (Raise e, self', w') →
            token_posts w' = token_posts w
            ∨ token_posts w' = token_posts w ++ [EvTokenPost (token_request_of self)]).
  { intros w0 Hw0. rewrite fetch_and_cache_eq, send_request_eq.
    destruct (is_ascii _); [|intros [= _ _ <-]; left; exact Hw0].
    assert (token_posts (w0 ++ [EvTokenPost (token_request_of self)])
            = token_posts w ++ [EvTokenPost (token_request_of self)])
      by (rewrite token_posts_snoc, Hw0; reflexivity).
    destruct (token_endpoint _ _) as [e0|[v|]]; try (intros [= _ _ <-]; right; assumption).
    destruct (getitem v _); [discriminate|]. intros [= _ _ <-]; right; assumption. }
  assert (Hnow : token_posts (w ++ [EvNow (clock w)]) = token_posts w)
    by (rewrite token_posts_snoc; apply app_nil_r).
  destruct (truthy (current_token self)); [|apply Hfetch; reflexivity].
  destruct (date_token_fetched self) as [fetched|].
  - destruct (_ <=? _); [apply Hfetch; exact Hnow | discriminate].
  - intros [= _ _ <-]. left; exact Hnow.
Qed.

(** X3.  A [get_token] that raises leaves the manager as it was, token and
    fetch time included, and has posted to the token endpoint at most
    once. *)
Theorem failed_refresh_keeps_cache `{Platform} (self self' : TokenManager) (w w' : world)
    (e : exn) :
  get_token self w = (Raise e, self', w') →
  self' = self
  ∧ (token_posts w' = token_posts w
     ∨ token_posts w' = token_posts w ++ [EvTokenPost (token_request_of self)]).
Proof.
  intros Hcall. split.
  - eapply get_token_failure_keeps_cache, Hcall.
  - eapply failed_get_token_posts, Hcall.
Qed.

Lemma failed_refresh_keeps_cache_witness :
  let P := scripted (secs 4000) (PostRaises (RequestException "connection refused"))
             ok_response in
  let run := @get_token P (holding "v1" 0) [] in
  run.1.2 = holding "v1" 0
  ∧ (token_posts run.2 = token_posts []
     ∨ token_posts run.2 = token_posts [] ++ [EvTokenPost (token_request_of (holding "v1" 0))]).
Proof.
  intros P run.
  apply (@failed_refresh_keeps_cache P (holding "v1" 0) run.1.2 [] run.2
           (RequestException "connection refused")).
  vm_compute. reflexivity.
Defined.

(** X4.  Credentials with a character outside ASCII make [_send_request]
    raise UnicodeEncodeError before anything is posted; [get_token] on an
    absent token raises the same with the trace unchanged. *)
Theorem non_ascii_credentials_stop_before_the_post `{Platform} (self : TokenManager) (w : world) :
  is_ascii (client_id self +:+ ":" +:+ client_secret self) = false →
  _send_request self w = (Raise UnicodeEncodeError, self, w)
  ∧ (truthy (current_token self) = false →
     get_token self w = (Raise UnicodeEncodeError, self, w)).
Proof.
  intros Hascii.
  assert (Hsend : _send_request self w = (Raise UnicodeEncodeError, self, w))
    by (rewrite send_request_eq, Hascii; reflexivity).
  split; [exact Hsend|]. intros Htok.
  rewrite get_token_eq, Htok, fetch_and_cache_eq, Hsend. reflexivity.
Qed.

Lemma non_ascii_credentials_stop_before_the_post_witness :
  let P := scripted 0 (token_body "v1") ok_response in
  let self := TokenManager_init (String (ascii_of_nat 233) "bay") "secret" in
  @_send_request P self [] = (Raise UnicodeEncodeError, self, [])
  ∧ @get_token P self [] = (Raise UnicodeEncodeError, self, []).
Proof.
  intros P self.
  destruct (@non_ascii_credentials_stop_before_the_post P self [] ltac:(reflexivity))
    as [Hsend Hget].
  split; [exact Hsend | apply Hget; reflexivity].
Defined.

Lemma seconds_after_set_back (us : Z) :
  - secs (SECONDS_PER_DAY - TOKEN_TTL_SECS) ≤ us < 0 →
  (TOKEN_TTL_SECS <=? seconds (timedelta_of_microseconds us)) = true.
Proof.
  unfold secs, TOKEN_TTL_SECS, SECONDS_PER_DAY, US_PER_SECOND. intros [Hlo Hhi].
  rewrite seconds_of_microseconds. unfold US_PER_SECOND, SECONDS_PER_DAY.
  apply Z.leb_le.
  assert (- 82800 ≤ us / 1000000) by (apply Z.div_le_lower_bound; lia).
  assert (us / 1000000 < 0) by (apply Z.div_lt_upper_bound; lia).
  assert (Hmod : (us / 1000000) mod 86400 = us / 1000000 + 86400).
  { symmetry. apply (Z.mod_unique _ _ (-1)); lia. }
  lia.
Qed.

(** X5.  A fetch time up to 23 hours ahead of the clock (the clock was set
    back) makes [is_expired] answer true, so [get_token] fetches again. *)
Theorem clock_set_back_expires_the_token `{Platform} (self : TokenManager) (w : world)
    (fetched : datetime) :
  date_token_fetched self = Some fetched →
  - secs (SECONDS_PER_DAY - TOKEN_TTL_SECS) ≤ clock w - fetched < 0 →
  is_expired self w = (Return true, self, w ++ [EvNow (clock w)])
  ∧ (truthy (current_token self) = true →
     get_token self w = fetch_and_cache self (w ++ [EvNow (clock w)])).
Proof.
  intros Hdate Hage.
  assert (Hexp : (TOKEN_TTL_SECS <=? seconds (datetime_sub (clock w) fetched)) = true)
    by (apply seconds_after_set_back, Hage).
  split.
  - rewrite is_expired_eq, Hdate, Hexp. reflexivity.
  - intros Htok. rewrite get_token_eq, Htok, Hdate, Hexp. reflexivity.
Qed.

Lemma clock_set_back_expires_the_token_witness :
  let P := scripted (secs 1000) (token_body "v2") ok_response in
  let self := holding "v1" (secs 1060) in
  @is_expired P self [] = (Return true, self, [EvNow (secs 1000)])
  ∧ @get_token P self [] = @fetch_and_cache P self [EvNow (secs 1000)].
Proof.
  intros P self.
  destruct (@clock_set_back_expires_the_token P self [] (secs 1060) ltac:(reflexivity)
              ltac:(vm_compute; split; [discriminate | reflexivity])) as [Hexp Hget].
  split; [exact Hexp | apply Hget; reflexivity].
Defined.

Lemma seconds_whole_days (us k : Z) :
  seconds (timedelta_of_microseconds (us + k * secs SECONDS_PER_DAY))
  = seconds (timedelta_of_microseconds us).
Proof.
  rewrite !seconds_of_microseconds. unfold secs.
  replace (us + k * (SECONDS_PER_DAY * US_PER_SECOND))
    with (us + (k * SECONDS_PER_DAY) * US_PER_SECOND) by ring.
  unfold US_PER_SECOND, SECONDS_PER_DAY.
  rewrite Z.div_add by lia. rewrite Z.mod_add by lia. reflexivity.
Qed.

(** X6.  The answer of [is_expired] is the same at two clock readings a
    whole number of days apart. *)
Theorem is_expired_repeats_daily `{Platform} (self : TokenManager) (w w' : world) (k : Z) :
  clock w' = clock w + k * secs SECONDS_PER_DAY →
  (is_expired self w').1.1 = (is_expired self w).1.1.
Proof.
  intros Hclock. rewrite !is_expired_eq.
  destruct (date_token_fetched self) as [fetched|]; [|reflexivity].
  cbn [fst]. unfold datetime_sub. rewrite Hclock.
  replace (clock w + k * secs SECONDS_PER_DAY - fetched)
    with (clock w - fetched + k * secs SECONDS_PER_DAY) by ring.
  rewrite seconds_whole_days. reflexivity.
Qed.

(** X7.  One [get_token] posts to the token endpoint at most once, always
    the same request, and sends nothing to the API; when it returns without
    a post, it returned the cached token and changed nothing. *)
Theorem get_token_posts_at_most_once `{Platform} (self self' : TokenManager) (w w' : world)
    (o : outcome pyval) :
  get_token self w = (o, self', w') →
  (token_posts w' = token_posts w
   ∨ token_posts w' = token_posts w ++ [EvTokenPost (token_request_of self)])
  ∧ sends w' = sends w
  ∧ (∀ tok, o = Return tok → token_posts w' = token_posts w →
       tok = current_token self ∧ self' = self).
Proof.
  intros Hcall.
  assert (Hquiet : sends w' = sends w)
    by (eapply get_token_quiet; [apply quiet_refl | exact Hcall]).
  destruct o as [tok|e].
  2: { split; [eapply failed_get_token_posts, Hcall|].
       split; [exact Hquiet | discriminate]. }
  revert Hcall. rewrite get_token_eq.
  assert (Hnow : token_posts (w ++ [EvNow (clock w)]) = token_posts w)
    by (rewrite token_posts_snoc; apply app_nil_r).
  assert (Hfetch : ∀ w0, token_posts w0 = token_posts w →
            fetch_and_cache self w0 = (Return tok, self', w') →
            token_posts w' = token_posts w ++ [EvTokenPost (token_request_of self)]).
  { intros w0 Hw0. rewrite fetch_and_cache_eq, send_request_eq.
    destruct (is_ascii _); [|discriminate].
    destruct (token_endpoint _ _) as [e0|[v|]]; try discriminate.
    destruct (getitem v _); [|discriminate]. intros [= _ _ <-].
    rewrite !token_posts_snoc, Hw0. simpl. apply app_nil_r. }
  assert (Hgrow : ∀ l (x : event), l = l ++ [x] → False).
  { intros l x Heq. apply (f_equal length) in Heq. rewrite length_app in Heq.
    simpl in Heq. lia. }
  destruct (truthy (current_token self)).
  - destruct (date_token_fetched self) as [fetched|]; [|discriminate].
    destruct (_ <=? _).
    + intros Hcall. pose proof (Hfetch _ Hnow Hcall) as Hposts.
      split; [right; exact Hposts|]. split; [exact Hquiet|].
      intros tok' _ Hsame. rewrite Hposts in Hsame. symmetry in Hsame.
      destruct (Hgrow _ _ Hsame).
    + intros [= <- <- <-]. split; [left; exact Hnow|]. split; [exact Hquiet|].
      intros tok' [= <-] _. split; reflexivity.
  - intros Hcall. pose proof (Hfetch _ eq_refl Hcall) as Hposts.
    split; [right; exact Hposts|]. split; [exact Hquiet|].
    intros tok' _ Hsame. rewrite Hposts in Hsame. symmetry in Hsame.
    destruct (Hgrow _ _ Hsame).
Qed.

Lemma is_expired_repeats_daily_witness :
  let P := daily (secs 10) (token_body "v1") ok_response in
  (@is_expired P (holding "v1" 0) [EvSessionClose]).1.1
  = (@is_expired P (holding "v1" 0) []).1.1.
Proof.
  intros P.
  apply (@is_expired_repeats_daily P (holding "v1" 0) [] [EvSessionClose] 1).
  reflexivity.
Defined.

Lemma get_token_posts_at_most_once_witness :
  let P := scripted (secs 100) (token_body "v1") ok_response in
  let run := @get_token P (holding "v1" 0) [] in
  (token_posts run.2 = token_posts []
   ∨ token_posts run.2 = token_posts [] ++ [EvTokenPost (token_request_of (holding "v1" 0))])
  ∧ sends run.2 = sends []
  ∧ (∀ tok, run.1.1 = Return tok → token_posts run.2 = token_posts [] →
       tok = current_token (holding "v1" 0) ∧ run.1.2 = holding "v1" 0).
Proof.
  intros P run.
  apply (@get_token_posts_at_most_once P (holding "v1" 0) run.1.2 [] run.2 run.1.1).
  vm_compute. reflexivity.
Defined.

(** ** Building the request *)

Ltac destruct_connection self :=
  destruct self as [tm resp req vb cfg meth tmo ph pp esc dn ln prx par bln rid rdict
                    rcontent rerr berrs bwarns codes].

Ltac destruct_finish :=
  destruct (smart_encode_request_data _) as [?encoded|?e];
    [destruct (prepare_raises _) as [?e|]|].

Ltac destruct_fields self :=
  destruct self as [? ? ? ? ? ? ? ? ? ? ? ? ? ? ? ? ? ? ? ? ? ?].

Section BuildFacts.
Context `{Platform} `{Service}.

Lemma build_request_eq (v : option string) (data verb_attrs : pyval)
    (files : option (gmap string string)) (self : Connection) (w : world) :
  build_request v data verb_attrs files self w =
    let u := uuid_source w in
    let w0 := w ++ [EvUuid4 u] in
    let s0 := set_request_id (Some u) (set_request_dict data (set_verb v self)) in
    match config self with
    | None => (Raise (AttributeError "NoneType object has no attribute get"), s0, w0)
    | Some c =>
        let url := HTTP_SSL (default true (cfg_https c)) +:+ "://"
                   +:+ str_of_opt (cfg_domain c) +:+ str_of_opt (cfg_uri c) in
        match get_token (token_manager self) w0 with
        | (Raise e, tm', w1) => (Raise e, set_token_manager tm' s0, w1)
        | (Return token, tm', w1) =>
            let s1 := set_token_manager tm' s0 in
            let headers := with_sdk_headers (build_request_headers s0 v) u token in
            let body := build_request_data s1 v data verb_attrs in
            let finish (headers : gmap string pyval) (payload : request_data) :=
              match smart_encode_request_data payload with
              | Raise e => (Raise e, s1, w1)
              | Return encoded =>
                  let request := {| req_method := method self;
                                    req_url := url;
                                    req_data := encoded;
                                    req_headers := headers;
                                    req_files := files |} in
                  match prepare_raises request with
                  | Some e => (Raise e, s1, w1)
                  | None => (Return tt, set_request (Some request) s1, w1)
                  end
              end in
            if files_truthy files then
              match headers !! "Content-Type" with
              | None => (Raise (KeyError "Content-Type"), s1, w1)
              | Some _ =>
                  finish (delete "Content-Type" headers)
                    (if is_str body then DataDict (<["XMLPayload" := body]> ∅) else body)
              end
            else finish headers body
        end
    end.
Proof.
  destruct_connection self.
  unfold build_request, uuid4, build_request_url, del_item, zoom, with_sdk_headers, lift,
    py_bind, modify, get, history, emit, py_ret, raise. simpl.
  destruct cfg as [c|]; simpl; [|reflexivity].
  destruct (get_token tm _) as [[[token|e] tm1] w1]; simpl; [|reflexivity].
  destruct (files_truthy files); simpl.
  - destruct (_ !! "Content-Type"); simpl; [|reflexivity].
    destruct (smart_encode_request_data _) as [encoded|e]; simpl; [|reflexivity].
    destruct (prepare_raises _) as [e|]; reflexivity.
  - destruct (smart_encode_request_data _) as [encoded|e]; simpl; [|reflexivity].
    destruct (prepare_raises _) as [e|]; reflexivity.
Qed.

Lemma execute_build_eq (v : option string) (data : pyval) (list_nodes : list string)
    (verb_attrs : pyval) (files : option (gmap string string))
    (self : Connection) (w : world) :
  execute_build v data list_nodes verb_attrs files self w
  = build_request v data verb_attrs files (prepared self v list_nodes) w.
Proof.
  unfold execute_build, py_bind at 1 2 3 4. unfold _reset, modify. cbv beta iota.
  destruct_connection self. reflexivity.
Qed.

End BuildFacts.

(** ** Frames: what each stage leaves alone *)

Lemma same_settings_refl (s : Connection) : same_settings s s.
Proof. repeat split. Qed.

Lemma same_settings_trans (s1 s2 s3 : Connection) :
  same_settings s1 s2 → same_settings s2 s3 → same_settings s1 s3.
Proof.
  unfold same_settings. intros H12 H23.
  destruct H12 as (?&?&?&?&?&?&?&?&?&?), H23 as (?&?&?&?&?&?&?&?&?&?).
  repeat split; congruence.
Qed.

Lemma same_request_refl (s : Connection) : same_request s s.
Proof. repeat split. Qed.

Lemma same_request_trans (s1 s2 s3 : Connection) :
  same_request s1 s2 → same_request s2 s3 → same_request s1 s3.
Proof.
  unfold same_request. intros H12 H23.
  destruct H12 as (?&?&?&?&?&?), H23 as (?&?&?&?&?&?).
  repeat split; congruence.
Qed.

Section StageFacts.
Context `{Platform} `{Service}.

Lemma execute_request_eq (s : Connection) (w : world) :
  execute_request s w =
    match request s with
    | None => (Raise (AttributeError "NoneType object has no attribute method"), s, w)
    | Some req =>
        match parallel s with
        | Some _ => (Return tt, s, w ++ [EvAddRequest (request s)])
        | None =>
            match transport w req with
            | SendRaises e => (Raise e, s, w ++ [EvSend req])
            | SendReturns raw => (Return tt, set_response (Transport raw) s, w ++ [EvSend req])
            end
        end
    end.
Proof.
  unfold execute_request, session_send, py_bind, get, history, emit, modify, raise, py_ret.
  destruct (request s) as [req|]; [|reflexivity].
  destruct (parallel s); [reflexivity|]. simpl.
  destruct (transport w req); reflexivity.
Qed.

Lemma error_check_keeps_state (s s' : Connection) (w w' : world) (o : outcome unit) :
  error_check s w = (o, s', w') → s' = s ∧ w' = w.
Proof.
  rewrite error_check_eq, error_eq.
  destruct (_get_resp_body_errors s) as [body|e]; [|intros [= _ <- <-]; auto].
  cbv zeta. destruct (0 <? length _)%nat; cbv beta iota;
    [|intros [= _ <- <-]; auto].
  destruct (opt_truthy (Some _)); [|intros [= _ <- <-]; auto].
  destruct (config s) as [c|]; [|intros [= _ <- <-]; auto].
  destruct (default true (cfg_errors c)); intros [= _ <- <-]; auto.
Qed.

Lemma build_request_keeps (v : option string) (data verb_attrs : pyval)
    (files : option (gmap string string)) (self s : Connection) (w w' : world)
    (o : outcome unit) :
  build_request v data verb_attrs files self w = (o, s, w') →
  same_settings self s
  ∧ _list_nodes s = _list_nodes self
  ∧ verb s = v
  ∧ _request_dict s = data
  ∧ _request_id s = Some (uuid_source w)
  ∧ (o ≠ Return tt → request s = request self).
Proof.
  rewrite build_request_eq. cbv zeta. destruct_connection self. simpl.
  destruct cfg as [c|]; [|intros [= <- <- <-]; repeat split].
  destruct (get_token tm _) as [[[token|e] tm1] w1];
    [|intros [= <- <- <-]; repeat split].
  destruct (files_truthy files).
  - destruct (_ !! "Content-Type"); [destruct_finish|];
      intros [= <- <- <-]; repeat split; intros Hne; try reflexivity; contradiction.
  - destruct_finish;
      intros [= <- <- <-]; repeat split; intros Hne; try reflexivity; contradiction.
Qed.

Lemma execute_rest_eq (s1 : Connection) (w1 : world) :
  execute_rest s1 w1 =
    match execute_request s1 w1 with
    | (Raise e, s, w) => (Raise e, s, w)
    | (Return _, s, w) =>
        if has_content (response s) then
          match process_response s w with
          | (Raise e, s2, w2) => (Raise e, s2, w2)
          | (Return _, s2, w2) => error_check s2 w2
          end
        else (Return tt, s, w)
    end.
Proof.
  unfold execute_rest, py_bind, get, py_ret.
  destruct (execute_request s1 w1) as [[[[]|e] s] w]; [|reflexivity].
  destruct (has_content (response s)); [|reflexivity].
  destruct (process_response s w) as [[[[]|e] s2] w2]; reflexivity.
Qed.

Lemma execute_stages (v : option string) (data : pyval) (list_nodes : list string)
    (verb_attrs : pyval) (files : option (gmap string string))
    (self : Connection) (w : world) :
  execute v data list_nodes verb_attrs files self w =
    match execute_build v data list_nodes verb_attrs files self w with
    | (Raise e, s1, w1) => (Raise e, s1, w1)
    | (Return _, s1, w1) =>
        match execute_rest s1 w1 with
        | (Raise e, s, w') => (Raise e, s, w')
        | (Return _, s, w') => (Return (response s), s, w')
        end
    end.
Proof.
  rewrite execute_eq, execute_send_eq.
  destruct (execute_build _ _ _ _ _ _ _) as [[[[]|e] s1] w1]; [|reflexivity].
  rewrite execute_rest_eq.
  destruct (execute_request s1 w1) as [[[[]|e] s] w0]; [|reflexivity].
  destruct (has_content (response s)); [|reflexivity].
  destruct (process_response s w0) as [[[[]|e] s2] w2]; [|reflexivity].
  destruct (error_check s2 w2) as [[[[]|e] s3] w3]; reflexivity.
Qed.

Lemma after_build_keeps (s1 s' : Connection) (w1 w' : world) (o : outcome unit) :
  execute_rest s1 w1 = (o, s', w') →
  same_settings s1 s' ∧ same_request s1 s'.
Proof.
  rewrite execute_rest_eq, execute_request_eq.
  destruct (request s1) as [req|] eqn:Hreq.
  2: { intros [= _ <- _]. split; [apply same_settings_refl | apply same_request_refl]. }
  assert (Hproc : ∀ s w,
            same_settings s1 s → same_request s1 s →
            (if has_content (response s) then
               match process_response s w with
               | (Raise e, s2, w2) => (Raise e, s2, w2)
               | (Return _, s2, w2) => error_check s2 w2
               end
             else (Return tt, s, w)) = (o, s', w') →
            same_settings s1 s' ∧ same_request s1 s').
  { intros s w Hset Hrq.
    destruct (response s) as [|raw|r] eqn:Hresp; simpl.
    - intros [= _ <- _]. auto.
    - rewrite (process_response_eq s w raw Hresp). cbv zeta.
      intros Hcheck. apply error_check_keeps_state in Hcheck as [-> _].
      split; [eapply same_settings_trans; [exact Hset|]
             | eapply same_request_trans; [exact Hrq|]];
        destruct_fields s; destruct (negb _); repeat split.
    - unfold process_response, py_bind, get, modify, emit, py_ret. rewrite Hresp. simpl.
      destruct (negb _); simpl;
        intros Hcheck; apply error_check_keeps_state in Hcheck as [-> _];
        (split; [eapply same_settings_trans; [exact Hset|]
                | eapply same_request_trans; [exact Hrq|]]);
        destruct_fields s; repeat split. }
  destruct (parallel s1).
  - apply Hproc; [apply same_settings_refl | apply same_request_refl].
  - destruct (transport w1 req) as [e|raw].
    + intros [= _ <- _]. split; [apply same_settings_refl | apply same_request_refl].
    + apply Hproc; destruct_fields s1; repeat split.
Qed.

End StageFacts.

(** ** Whole calls *)

Section CallFacts.
Context `{Platform} `{Service}.

Lemma prepared_settings (self : Connection) (v : option string) (list_nodes : list string) :
  same_settings self (prepared self v list_nodes)
  ∧ _list_nodes (prepared self v list_nodes) = _add_prefix list_nodes v ++ base_list_nodes self
  ∧ request (prepared self v list_nodes) = None
  ∧ response (prepared self v list_nodes) = NoResponse
  ∧ token_manager (prepared self v list_nodes) = token_manager self.
Proof. destruct_fields self. repeat split. Qed.

Lemma execute_keeps (v : option string) (data : pyval) (list_nodes : list string)
    (verb_attrs : pyval) (files : option (gmap string string))
    (self s' : Connection) (w w' : world) (o : outcome response_slot) :
  execute v data list_nodes verb_attrs files self w = (o, s', w') →
  same_settings self s'
  ∧ _list_nodes s' = _add_prefix list_nodes v ++ base_list_nodes self
  ∧ verb s' = v
  ∧ _request_dict s' = data
  ∧ _request_id s' = Some (uuid_source w).
Proof.
  rewrite execute_stages, execute_build_eq.
  destruct (prepared_settings self v list_nodes) as (Hset0 & Hnodes0 & _).
  destruct (build_request _ _ _ _ _ _) as [[o1 s1] w1] eqn:Hbuild.
  destruct (build_request_keeps _ _ _ _ _ _ _ _ _ Hbuild)
    as (Hset1 & Hnodes1 & Hverb1 & Hdict1 & Hid1 & _).
  assert (Hbase : same_settings self s1 ∧ _list_nodes s1 = _add_prefix list_nodes v ++ base_list_nodes self).
  { split; [exact (same_settings_trans _ _ _ Hset0 Hset1) | congruence]. }
  destruct Hbase as [Hset Hnodes].
  destruct o1 as [[]|e];
    [|intros [= _ <- _]; split; [exact Hset|]; repeat split; congruence].
  destruct (execute_rest s1 w1) as [[o2 s2] w2] eqn:Hrest.
  destruct (after_build_keeps _ _ _ _ _ Hrest) as [Hset2 (_ & Hid2 & Hdict2 & Hverb2 & Hnodes2 & _)].
  assert (Hset' : same_settings self s2) by exact (same_settings_trans _ _ _ Hset Hset2).
  destruct o2 as [[]|e]; intros [= _ <- _];
    (split; [exact Hset'|]; repeat split; congruence).
Qed.

Lemma execute_rest_sent (s1 : Connection) (w1 : world) (req : PreparedRequest)
    (raw : RawResponse) :
  request s1 = Some req →
  parallel s1 = None →
  transport w1 req = SendReturns raw →
  execute_rest s1 w1 = error_check (processed s1 raw) (w1 ++ [EvSend req; EvSessionClose]).
Proof.
  intros Hreq Hpar Hsend.
  rewrite execute_rest_eq, execute_request_eq, Hreq, Hpar, Hsend.
  assert (Hresp : response (set_response (Transport raw) s1) = Transport raw)
    by (destruct_fields s1; reflexivity).
  rewrite Hresp. cbn [has_content].
  rewrite (process_response_eq _ _ raw Hresp). cbv zeta.
  rewrite <- app_assoc. cbn [app].
  replace (if negb (raw_status_code raw =? 200) then _ else _) with (processed s1 raw);
    [reflexivity|].
  unfold processed, normalized. destruct_fields s1. reflexivity.
Qed.

Lemma processed_fields (s : Connection) (raw : RawResponse) :
  response (processed s raw) = Normalized (normalized s raw)
  ∧ _response_content (processed s raw) = Some (raw_content raw)
  ∧ _response_error (processed s raw)
    = (if negb (raw_status_code raw =? 200) then Some (raw_reason raw)
       else _response_error s)
  ∧ verb (processed s raw) = verb s
  ∧ config (processed s raw) = config s
  ∧ _resp_body_errors (processed s raw) = _resp_body_errors s.
Proof.
  unfold processed. destruct_fields s. destruct (negb _); repeat split.
Qed.

End CallFacts.

Lemma add_prefix_map (nodes : list string) (v : string) :
  _add_prefix nodes (Some v) = map (with_prefix v) nodes.
Proof.
  unfold _add_prefix. simpl. unfold str_truthy. case_bool_decide as Hv; simpl.
  - subst v. symmetry. apply map_id.
  - rewrite add_prefix_loop by lia. rewrite firstn_all, drop_all, app_nil_r. reflexivity.
Qed.

Lemma with_prefix_starts (v node : string) :
  startswith (with_prefix v node) (lower v) = true.
Proof.
  unfold with_prefix. destruct (startswith node (lower v)) eqn:Hsw; [exact Hsw|].
  apply startswith_app.
Qed.

Lemma request_set_request (x : option PreparedRequest) (s : Connection) :
  request (set_request x s) = x.
Proof. destruct_fields s. reflexivity. Qed.

Section ReturnFacts.
Context `{Platform} `{Service}.

Lemma execute_returns_shape (v : option string) (data : pyval) (list_nodes : list string)
    (verb_attrs : pyval) (files : option (gmap string string))
    (self s' : Connection) (w w' : world) (x : response_slot) :
  execute v data list_nodes verb_attrs files self w = (Return x, s', w') →
  x = response s'
  ∧ ((x = NoResponse ∧ is_Some (parallel self))
     ∨ (parallel self = None
        ∧ ∃ raw, x = Normalized {| resp_obj := raw;
                                   resp_verb := v;
                                   resp_list_nodes :=
                                     _add_prefix list_nodes v ++ base_list_nodes self;
                                   resp_datetime_nodes := datetime_nodes self |}
                 ∧ _response_content s' = Some (raw_content raw))).
Proof.
  intros Hcall.
  destruct (execute_keeps _ _ _ _ _ _ _ _ _ _ Hcall) as (Hset & Hnodes & Hverb & _).
  revert Hcall. rewrite execute_stages.
  destruct (execute_build _ _ _ _ _ _ _) as [[[[]|e] s1] w1] eqn:Hbuild; [|discriminate].
  destruct (execute_build_frame _ _ _ _ _ _ _ _ _ _ Hbuild)
    as (Hpar & Hresp & _ & _ & _ & Hreq).
  destruct (Hreq eq_refl) as [req Hreq1].
  destruct (execute_rest s1 w1) as [[[[]|e] s2] w2] eqn:Hrest; [|discriminate].
  intros [= <- <- <-]. split; [reflexivity|].
  destruct (after_build_keeps _ _ _ _ _ Hrest) as [Hset2 (_ & _ & _ & Hverb2 & Hnodes2 & _)].
  revert Hrest.
  destruct (parallel self) as [p|] eqn:Hself.
  - rewrite execute_rest_eq, execute_request_eq, Hreq1, Hpar, Hresp. simpl.
    intros [= <-]. left. rewrite Hresp. split; [reflexivity | eexists; reflexivity].
  - destruct (transport w1 req) as [e|raw] eqn:Hsend.
    + rewrite execute_rest_eq, execute_request_eq, Hreq1, Hpar, Hsend. discriminate.
    + rewrite (execute_rest_sent s1 w1 req raw Hreq1 Hpar Hsend).
      intros Hcheck. apply error_check_keeps_state in Hcheck as [-> _].
      right. split; [reflexivity|]. exists raw.
      destruct (processed_fields s1 raw) as (-> & -> & _). unfold normalized.
      destruct Hset2 as (_&_&_&_&_&_&Hdn2&_). destruct Hset as (_&_&_&_&_&_&Hdn&_).
      split; [|reflexivity]. f_equal. f_equal; congruence.
Qed.

End ReturnFacts.

(** ** Properties of a call *)

(** X8.  Whatever its outcome, [execute] leaves the settings of the
    connection (configuration, method, timeout, proxy, parallel context,
    base list nodes, datetime nodes) as they were. *)
Theorem execute_keeps_settings `{Platform} `{Service}
    (v : option string) (data : pyval) (list_nodes : list string) (verb_attrs : pyval)
    (files : option (gmap string string)) (self s' : Connection) (w w' : world)
    (o : outcome response_slot) :
  execute v data list_nodes verb_attrs files self w = (o, s', w') →
  same_settings self s'.
Proof. intros Hcall. eapply execute_keeps, Hcall. Qed.

Lemma execute_keeps_settings_witness :
  let P := scripted (secs 100) (token_body "v1") ok_response in
  let S := reporting ["Invalid ID"] in
  let self := connection_of (TokenManager_init "id" "secret")
                (Some (trading_config None)) None in
  let run := @execute P S (Some "GetItem") (PDict []) ["item.variations"] PNone None self [] in
  same_settings self run.1.2.
Proof.
  intros P S self run.
  apply (@execute_keeps_settings P S (Some "GetItem") (PDict []) ["item.variations"] PNone
           None self run.1.2 [] run.2 run.1.1).
  vm_compute. reflexivity.
Defined.

(** X9.  After [execute] the list-node paths are the caller's paths, each
    normalized for the verb, followed by the instance's [base_list_nodes]
    unchanged; the normalized result carries the same list. *)
Theorem execute_list_nodes `{Platform} `{Service}
    (v : string) (data : pyval) (list_nodes : list string) (verb_attrs : pyval)
    (files : option (gmap string string)) (self s' : Connection) (w w' : world)
    (o : outcome response_slot) :
  execute (Some v) data list_nodes verb_attrs files self w = (o, s', w') →
  _list_nodes s' = map (with_prefix v) list_nodes ++ base_list_nodes self
  ∧ (∀ r, o = Return (Normalized r) →
       resp_list_nodes r = map (with_prefix v) list_nodes ++ base_list_nodes self).
Proof.
  intros Hcall.
  destruct (execute_keeps _ _ _ _ _ _ _ _ _ _ Hcall) as (_ & Hln & _).
  rewrite add_prefix_map in Hln. split; [exact Hln|].
  intros r ->.
  destruct (execute_returns_shape _ _ _ _ _ _ _ _ _ _ Hcall) as (_ & [[Hno _] | (_ & raw & Hr)]).
  - discriminate.
  - destruct Hr as [Hr _]. injection Hr as ->. simpl. rewrite add_prefix_map. reflexivity.
Qed.

Lemma execute_list_nodes_witness :
  let P := scripted (secs 100) (token_body "v1") ok_response in
  let S := reporting [] in
  let self := connection_of (TokenManager_init "id" "secret")
                (Some (trading_config None)) None in
  let run := @execute P S (Some "GetItem") (PDict []) ["item.variations"] PNone None self [] in
  _list_nodes run.1.2 = map (with_prefix "GetItem") ["item.variations"] ++ base_list_nodes self
  ∧ (∀ r, run.1.1 = Return (Normalized r) →
       resp_list_nodes r
       = map (with_prefix "GetItem") ["item.variations"] ++ base_list_nodes self).
Proof.
  intros P S self run.
  apply (@execute_list_nodes P S "GetItem" (PDict []) ["item.variations"] PNone
           None self run.1.2 [] run.2 run.1.1).
  vm_compute. reflexivity.
Defined.

(** X10.  When [execute] returns, it returns [self.response]: nothing under
    a parallel context, otherwise a normalized result built with the verb,
    the list-node paths and the datetime nodes of this call, whose content
    is also kept in [_response_content]. *)
Theorem execute_returns_normalized_or_nothing `{Platform} `{Service}
    (v : option string) (data : pyval) (list_nodes : list string) (verb_attrs : pyval)
    (files : option (gmap string string)) (self s' : Connection) (w w' : world)
    (x : response_slot) :
  execute v data list_nodes verb_attrs files self w = (Return x, s', w') →
  x = response s'
  ∧ ((x = NoResponse ∧ is_Some (parallel self))
     ∨ (parallel self = None
        ∧ ∃ raw, x = Normalized {| resp_obj := raw;
                                   resp_verb := v;
                                   resp_list_nodes :=
                                     _add_prefix list_nodes v ++ base_list_nodes self;
                                   resp_datetime_nodes := datetime_nodes self |}
                 ∧ _response_content s' = Some (raw_content raw))).
Proof. apply execute_returns_shape. Qed.

Lemma execute_returns_normalized_or_nothing_witness :
  let P := scripted (secs 100) (token_body "v1") ok_response in
  let S := reporting [] in
  let self := connection_of (TokenManager_init "id" "secret")
                (Some (trading_config None)) None in
  let run := @execute P S (Some "GetItem") (PDict []) ["item.variations"] PNone None self [] in
  let x := Normalized {| resp_obj := {| raw_status_code := 200; raw_reason := "OK";
                                        raw_content := "<GetItemResponse/>" |};
                         resp_verb := Some "GetItem";
                         resp_list_nodes := ["getitemresponse.item.variations"];
                         resp_datetime_nodes := [] |} in
  x = response run.1.2
  ∧ ((x = NoResponse ∧ is_Some (parallel self))
     ∨ (parallel self = None
        ∧ ∃ raw, x = Normalized {| resp_obj := raw;
                                   resp_verb := Some "GetItem";
                                   resp_list_nodes :=
                                     _add_prefix ["item.variations"] (Some "GetItem")
                                     ++ base_list_nodes self;
                                   resp_datetime_nodes := datetime_nodes self |}
                 ∧ _response_content run.1.2 = Some (raw_content raw))).
Proof.
  intros P S self run x.
  apply (@execute_returns_normalized_or_nothing P S (Some "GetItem") (PDict [])
           ["item.variations"] PNone None self run.1.2 [] run.2).
  vm_compute. reflexivity.
Defined.

(** X11.  [execute] depends on the connection only through its settings
    and its token manager: what an earlier call left in the response, the
    request, the verb, the list nodes and the error fields has no effect. *)
Theorem execute_forgets_previous_call `{Platform} `{Service}
    (v : option string) (data : pyval) (list_nodes : list string) (verb_attrs : pyval)
    (files : option (gmap string string)) (self self' : Connection) (w : world) :
  same_settings self self' →
  token_manager self' = token_manager self →
  execute v data list_nodes verb_attrs files self' w
  = execute v data list_nodes verb_attrs files self w.
Proof.
  intros Hset Htm.
  assert (Hprep : prepared self' v list_nodes = prepared self v list_nodes).
  { destruct Hset as (?&?&?&?&?&?&?&?&?&?).
    destruct_fields self; destruct_fields self'; simpl in *; subst.
    reflexivity. }
  rewrite !execute_stages, !execute_build_eq, Hprep. reflexivity.
Qed.

Lemma execute_forgets_previous_call_witness :
  let P := scripted (secs 100) (token_body "v1") ok_response in
  let S := reporting [] in
  let self := connection_of (holding "v1" 0) (Some (trading_config None)) None in
  let used := (@execute P (reporting ["Invalid ID"]) (Some "GetItem") (PDict [])
                 ["item.variations"] PNone None self []).1.2 in
  @execute P S (Some "GetUser") (PDict []) [] PNone None used []
  = @execute P S (Some "GetUser") (PDict []) [] PNone None self [].
Proof.
  intros P S self used.
  apply (@execute_forgets_previous_call P S (Some "GetUser") (PDict []) [] PNone None
           self used []).
  - vm_compute. repeat split.
  - vm_compute. reflexivity.
Defined.



(** X13.  With attachments and a Content-Type among the service headers,
    once the body is encoded and [Request(...).prepare()] returns,
    [build_request] succeeds: it has removed that header and kept every
    other, and has wrapped a [str] body as the field XMLPayload of a dict
    before encoding it. *)
Theorem build_request_with_files `{Platform} `{Service}
    (v : option string) (data verb_attrs : pyval) (files : option (gmap string string))
    (self : Connection) (w w1 : world) (c : Config) (token : pyval) (tm' : TokenManager)
    (preset : pyval) (encoded : request_data) :
  let u := uuid_source w in
  let s0 := set_request_id (Some u) (set_request_dict data (set_verb v self)) in
  let s1 := set_token_manager tm' s0 in
  let body := build_request_data s1 v data verb_attrs in
  let url := HTTP_SSL (default true (cfg_https c)) +:+ "://"
             +:+ str_of_opt (cfg_domain c) +:+ str_of_opt (cfg_uri c) in
  let headers := delete "Content-Type"
                   (with_sdk_headers (build_request_headers s0 v) u token) in
  files_truthy files = true →
  config self = Some c →
  get_token (token_manager self) (w ++ [EvUuid4 u]) = (Return token, tm', w1) →
  build_request_headers s0 v !! "Content-Type" = Some preset →
  smart_encode_request_data
    (if is_str body then DataDict (<["XMLPayload" := body]> ∅) else body)
    = Return encoded →
  prepare_raises {| req_method := method self;
                    req_url := url;
                    req_data := encoded;
                    req_headers := headers;
                    req_files := files |} = None →
  ∃ s req,
    build_request v data verb_attrs files self w = (Return tt, s, w1)
    ∧ request s = Some req
    ∧ req_files req = files
    ∧ req_headers req !! "Content-Type" = None
    ∧ (∀ k, k ≠ "Content-Type" →
         req_headers req !! k = with_sdk_headers (build_request_headers s0 v) u token !! k)
    ∧ req_data req = encoded.
Proof.
  intros u s0 s1 body url headers Hfiles Hcfg Htok Hpreset Hencode Hprepare.
  rewrite build_request_eq. cbv zeta. fold u. fold s0. rewrite Hcfg, Htok. fold s1.
  rewrite Hfiles.
  assert (Hct : with_sdk_headers (build_request_headers s0 v) u token !! "Content-Type"
                = Some preset).
  { unfold with_sdk_headers. rewrite !lookup_insert_ne by discriminate. exact Hpreset. }
  rewrite Hct. fold body. rewrite Hencode. fold url. fold headers. rewrite Hprepare.
  eexists _, _. split; [reflexivity|].
  split; [apply request_set_request|]. cbn [req_files req_headers req_data].
  split; [reflexivity|]. split; [apply lookup_delete_eq|].
  split; [|reflexivity].
  intros k Hk. apply lookup_delete_ne. congruence.
Qed.

Lemma build_request_with_files_witness :
  let P := scripted (secs 100) (token_body "v1") ok_response in
  let S := reporting [] in
  let self := connection_of (holding "v1" 0) (Some (trading_config None)) None in
  let files := Some (<["image" := "picture.jpg"]> (∅ : gmap string string)) in
  ∃ s req,
    @build_request P S (Some "UploadSiteHostedPictures") (PDict []) PNone files self []
      = (Return tt, s, [EvUuid4 (@uuid_source P []); EvNow (secs 100)])
    ∧ request s = Some req
    ∧ req_files req = files
    ∧ req_headers req !! "Content-Type" = None
    ∧ (∀ k, k ≠ "Content-Type" →
         req_headers req !! k
         = @with_sdk_headers P (<["Content-Type" := PStr "text/xml"]> ∅)
             (@uuid_source P []) (PStr "v1") !! k)
    ∧ req_data req
      = DataDict (<["XMLPayload" := DataStr "<GetItemRequest/>"]> ∅).
Proof.
  intros P S self files.
  apply (@build_request_with_files P S (Some "UploadSiteHostedPictures") (PDict []) PNone
           files self [] [EvUuid4 (@uuid_source P []); EvNow (secs 100)]
           (trading_config None) (PStr "v1") (holding "v1" 0) (PStr "text/xml")
           (DataDict (<["XMLPayload" := DataStr "<GetItemRequest/>"]> ∅))).
  - reflexivity.
  - reflexivity.
  - vm_compute. reflexivity.
  - reflexivity.
  - reflexivity.
  - reflexivity.
Defined.

(** X14.  When building the request fails (no configuration, failed token
    refresh, missing Content-Type), [execute] raises the same exception:
    no request is stored, nothing is sent and no response is recorded. *)
Theorem execute_stops_when_build_fails `{Platform} `{Service}
    (v : option string) (data : pyval) (list_nodes : list string) (verb_attrs : pyval)
    (files : option (gmap string string)) (self s1 : Connection) (w w1 : world) (e : exn) :
  execute_build v data list_nodes verb_attrs files self w = (Raise e, s1, w1) →
  execute v data list_nodes verb_attrs files self w = (Raise e, s1, w1)
  ∧ request s1 = None
  ∧ response s1 = NoResponse
  ∧ sends w1 = sends w
  ∧ closes w1 = closes w.
Proof.
  intros Hbuild.
  destruct (execute_build_frame _ _ _ _ _ _ _ _ _ _ Hbuild)
    as (_ & Hresp & _ & _ & [Hsends Hcloses] & _).
  split; [rewrite execute_stages, Hbuild; reflexivity|].
  split; [|auto].
  rewrite execute_build_eq in Hbuild.
  destruct (build_request_keeps _ _ _ _ _ _ _ _ _ Hbuild) as (_ & _ & _ & _ & _ & Hreq).
  rewrite Hreq by discriminate.
  destruct (prepared_settings self v list_nodes) as (_ & _ & Hnone & _). exact Hnone.
Qed.

Lemma execute_stops_when_build_fails_witness :
  let P := scripted (secs 100) (PostReturns None) ok_response in
  let S := reporting [] in
  let self := connection_of (TokenManager_init "id" "secret")
                (Some (trading_config None)) None in
  let built := @execute_build P S (Some "GetItem") (PDict []) [] PNone None self [] in
  @execute P S (Some "GetItem") (PDict []) [] PNone None self []
    = (Raise JSONDecodeError, built.1.2, built.2)
  ∧ request built.1.2 = None
  ∧ response built.1.2 = NoResponse
  ∧ sends built.2 = sends []
  ∧ closes built.2 = closes [].
Proof.
  intros P S self built.
  apply (@execute_stops_when_build_fails P S (Some "GetItem") (PDict []) [] PNone None
           self built.1.2 [] built.2 JSONDecodeError).
  vm_compute. reflexivity.
Defined.

(** X15.  When [session.send] raises, [execute] raises the same exception
    after that one send; no response and no error are recorded and the
    session is not closed. *)
Theorem execute_transport_failure `{Platform} `{Service}
    (v : option string) (data : pyval) (list_nodes : list string) (verb_attrs : pyval)
    (files : option (gmap string string)) (self s1 : Connection) (w w1 : world)
    (req : PreparedRequest) (e : exn) :
  execute_build v data list_nodes verb_attrs files self w = (Return tt, s1, w1) →
  parallel self = None →
  request s1 = Some req →
  transport w1 req = SendRaises e →
  execute v data list_nodes verb_attrs files self w = (Raise e, s1, w1 ++ [EvSend req])
  ∧ response s1 = NoResponse
  ∧ _response_error s1 = None
  ∧ sends (w1 ++ [EvSend req]) = sends w ++ [EvSend req]
  ∧ closes (w1 ++ [EvSend req]) = closes w.
Proof.
  intros Hbuild Hpar Hreq Hsend.
  destruct (execute_build_frame _ _ _ _ _ _ _ _ _ _ Hbuild)
    as (Hpar1 & Hresp & _ & Herr & [Hsends Hcloses] & _).
  rewrite Hpar in Hpar1.
  split.
  - rewrite execute_stages, Hbuild, execute_rest_eq, execute_request_eq, Hreq, Hpar1, Hsend.
    reflexivity.
  - repeat split; try assumption.
    + unfold sends in *. rewrite filter_app, Hsends. reflexivity.
    + unfold closes in *. rewrite filter_app, Hcloses. apply app_nil_r.
Qed.

Lemma execute_transport_failure_witness :
  let P := scripted (secs 100) (token_body "v1")
             (SendRaises (RequestException "read timed out")) in
  let S := reporting [] in
  let self := connection_of (TokenManager_init "id" "secret")
                (Some (trading_config None)) None in
  let built := @execute_build P S (Some "GetItem") (PDict []) [] PNone None self [] in
  ∃ req,
    request built.1.2 = Some req
    ∧ @execute P S (Some "GetItem") (PDict []) [] PNone None self []
      = (Raise (RequestException "read timed out"), built.1.2, built.2 ++ [EvSend req])
    ∧ response built.1.2 = NoResponse
    ∧ _response_error built.1.2 = None
    ∧ sends (built.2 ++ [EvSend req]) = sends [] ++ [EvSend req]
    ∧ closes (built.2 ++ [EvSend req]) = closes [].
Proof.
  intros P S self built.
  destruct (request built.1.2) as [req|] eqn:Hreq; [|vm_compute in Hreq; discriminate].
  exists req. split; [reflexivity|].
  apply (@execute_transport_failure P S (Some "GetItem") (PDict []) [] PNone None
           self built.1.2 [] built.2 req (RequestException "read timed out")).
  - vm_compute. reflexivity.
  - reflexivity.
  - exact Hreq.
  - reflexivity.
Defined.

(** X16.  On status 200 with no error in the body, [execute] sends the
    built request once, closes the session once and returns the normalized
    result; the content is recorded and no error is. *)
Theorem execute_success `{Platform} `{Service}
    (v : option string) (data : pyval) (list_nodes : list string) (verb_attrs : pyval)
    (files : option (gmap string string)) (self s1 : Connection) (w w1 : world)
    (req : PreparedRequest) (raw : RawResponse) :
  execute_build v data list_nodes verb_attrs files self w = (Return tt, s1, w1) →
  parallel self = None →
  request s1 = Some req →
  transport w1 req = SendReturns raw →
  raw_status_code raw = 200 →
  _get_resp_body_errors (processed s1 raw) = Return [] →
  let r := {| resp_obj := raw;
              resp_verb := v;
              resp_list_nodes := _add_prefix list_nodes v ++ base_list_nodes self;
              resp_datetime_nodes := datetime_nodes self |} in
  execute v data list_nodes verb_attrs files self w
    = (Return (Normalized r), processed s1 raw, w1 ++ [EvSend req; EvSessionClose])
  ∧ response (processed s1 raw) = Normalized r
  ∧ _response_content (processed s1 raw) = Some (raw_content raw)
  ∧ _response_error (processed s1 raw) = None
  ∧ sends (w1 ++ [EvSend req; EvSessionClose]) = sends w ++ [EvSend req]
  ∧ closes (w1 ++ [EvSend req; EvSessionClose]) = closes w ++ [EvSessionClose].
Proof.
  intros Hbuild Hpar Hreq Hsend Hok Hnone r.
  destruct (execute_build_frame _ _ _ _ _ _ _ _ _ _ Hbuild)
    as (Hpar1 & Hresp & _ & Herr & [Hsends Hcloses] & _).
  rewrite Hpar in Hpar1.
  destruct (processed_fields s1 raw) as (Hr & Hcontent & Herror & _).
  rewrite Hok in Herror. simpl in Herror. rewrite Herr in Herror.
  assert (Hnorm : normalized s1 raw = r).
  { rewrite execute_build_eq in Hbuild.
    destruct (build_request_keeps _ _ _ _ _ _ _ _ _ Hbuild)
      as (Hset & Hnodes & Hverb & _).
    destruct (prepared_settings self v list_nodes) as (Hset0 & Hnodes0 & _).
    destruct Hset as (_&_&_&_&_&_&Hdn&_). destruct Hset0 as (_&_&_&_&_&_&Hdn0&_).
    unfold normalized. subst r. f_equal; congruence. }
  rewrite Hnorm in Hr.
  assert (Hcheck : error_check (processed s1 raw) (w1 ++ [EvSend req; EvSessionClose])
                   = (Return tt, processed s1 raw, w1 ++ [EvSend req; EvSessionClose])).
  { rewrite error_check_eq, error_eq, Hnone, Herror. reflexivity. }
  split.
  - rewrite execute_stages, Hbuild, (execute_rest_sent s1 w1 req raw Hreq Hpar1 Hsend), Hcheck.
    rewrite Hr. reflexivity.
  - repeat split; try assumption.
    + unfold sends in *. rewrite filter_app, Hsends. reflexivity.
    + unfold closes in *. rewrite filter_app, Hcloses. reflexivity.
Qed.

Lemma execute_success_witness :
  let P := scripted (secs 100) (token_body "v1") ok_response in
  let S := reporting [] in
  let self := connection_of (TokenManager_init "id" "secret")
                (Some (trading_config None)) None in
  let raw := {| raw_status_code := 200; raw_reason := "OK";
                raw_content := "<GetItemResponse/>" |} in
  let built := @execute_build P S (Some "GetItem") (PDict []) ["item.variations"] PNone None
                 self [] in
  let r := {| resp_obj := raw;
              resp_verb := Some "GetItem";
              resp_list_nodes := ["getitemresponse.item.variations"];
              resp_datetime_nodes := [] |} in
  ∃ req,
    request built.1.2 = Some req
    ∧ @execute P S (Some "GetItem") (PDict []) ["item.variations"] PNone None self []
      = (Return (Normalized r), processed built.1.2 raw,
         built.2 ++ [EvSend req; EvSessionClose])
    ∧ response (processed built.1.2 raw) = Normalized r
    ∧ _response_content (processed built.1.2 raw) = Some "<GetItemResponse/>"
    ∧ _response_error (processed built.1.2 raw) = None
    ∧ sends (built.2 ++ [EvSend req; EvSessionClose]) = sends [] ++ [EvSend req]
    ∧ closes (built.2 ++ [EvSend req; EvSessionClose]) = closes [] ++ [EvSessionClose].
Proof.
  intros P S self raw built r.
  destruct (request built.1.2) as [req|] eqn:Hreq; [|vm_compute in Hreq; discriminate].
  exists req. split; [reflexivity|].
  apply (@execute_success P S (Some "GetItem") (PDict []) ["item.variations"] PNone None
           self built.1.2 [] built.2 req raw).
  - vm_compute. reflexivity.
  - reflexivity.
  - exact Hreq.
  - reflexivity.
  - reflexivity.
  - reflexivity.
Defined.

(** X17.  After [execute] returned a normalized result, [response_code],
    [response_status] and [response_content] give its status, reason and
    content, and [_response_content] holds the same content; after a call
    under a parallel context they raise AttributeError. *)
Theorem accessors_follow_the_response `{Platform} `{Service}
    (v : option string) (data : pyval) (list_nodes : list string) (verb_attrs : pyval)
    (files : option (gmap string string)) (self s' : Connection) (w w' : world)
    (x : response_slot) :
  execute v data list_nodes verb_attrs files self w = (Return x, s', w') →
  match x with
  | Normalized r =>
      response_code s' w' = (Return (status_code r), s', w')
      ∧ response_status s' w' = (Return (reason r), s', w')
      ∧ response_content s' w' = (Return (content r), s', w')
      ∧ _response_content s' = Some (content r)
  | _ =>
      is_Some (parallel self)
      ∧ (∃ e, response_code s' w' = (Raise (AttributeError e), s', w'))
      ∧ (∃ e, response_status s' w' = (Raise (AttributeError e), s', w'))
      ∧ (∃ e, response_content s' w' = (Raise (AttributeError e), s', w'))
  end.
Proof.
  intros Hcall.
  destruct (execute_returns_shape _ _ _ _ _ _ _ _ _ _ Hcall)
    as (Hx & [[-> Hpar] | (_ & raw & -> & Hcontent)]).
  - unfold response_code, response_status, response_content, py_bind, get, raise.
    rewrite <- Hx. split; [exact Hpar|]. repeat split; eexists; reflexivity.
  - unfold response_code, response_status, response_content, py_bind, get, py_ret.
    rewrite <- Hx. repeat split. exact Hcontent.
Qed.

Lemma accessors_follow_the_response_witness :
  let P := scripted (secs 100) (token_body "v1") ok_response in
  let S := reporting [] in
  let self := connection_of (TokenManager_init "id" "secret")
                (Some (trading_config None)) None in
  let run := @execute P S (Some "GetItem") (PDict []) [] PNone None self [] in
  response_code run.1.2 run.2 = (Return 200, run.1.2, run.2)
  ∧ response_status run.1.2 run.2 = (Return "OK", run.1.2, run.2)
  ∧ response_content run.1.2 run.2 = (Return "<GetItemResponse/>", run.1.2, run.2)
  ∧ _response_content run.1.2 = Some "<GetItemResponse/>".
Proof.
  intros P S self run.
  apply (@accessors_follow_the_response P S (Some "GetItem") (PDict []) [] PNone None
           self run.1.2 [] run.2
           (Normalized {| resp_obj := {| raw_status_code := 200; raw_reason := "OK";
                                         raw_content := "<GetItemResponse/>" |};
                          resp_verb := Some "GetItem";
                          resp_list_nodes := [];
                          resp_datetime_nodes := [] |})).
  vm_compute. reflexivity.
Defined.

Lemma with_prefix_idempotent (v node : string) :
  with_prefix v (with_prefix v node) = with_prefix v node.
Proof.
  unfold with_prefix at 1. rewrite with_prefix_starts. reflexivity.
Qed.

(** X18.  [_add_prefix] keeps the number of paths, and applying it twice
    for the same verb gives the same as applying it once. *)
Theorem add_prefix_idempotent (nodes : list string) (v : option string) :
  _add_prefix (_add_prefix nodes v) v = _add_prefix nodes v
  ∧ length (_add_prefix nodes v) = length nodes.
Proof.
  destruct v as [v|]; [|split; reflexivity].
  rewrite !add_prefix_map, length_map. split; [|reflexivity].
  rewrite <- list_fmap_compose. apply list_fmap_ext. intros _ node _. simpl.
  apply with_prefix_idempotent.
Qed.

Section BaseClassFacts.
Context `{Platform}.

Lemma build_request_keeps_errors `{Service} (v : option string) (data verb_attrs : pyval)
    (files : option (gmap string string)) (self s : Connection) (w w' : world)
    (o : outcome unit) :
  build_request v data verb_attrs files self w = (o, s, w') →
  _resp_body_errors s = _resp_body_errors self.
Proof.
  rewrite build_request_eq. cbv zeta. destruct_connection self. simpl.
  destruct cfg as [c|]; [|intros [= <- <- <-]; reflexivity].
  destruct (get_token tm _) as [[[token|e] tm1] w1]; [|intros [= <- <- <-]; reflexivity].
  destruct (files_truthy files).
  - destruct (_ !! "Content-Type"); [destruct_finish|]; intros [= <- <- <-]; reflexivity.
  - destruct_finish; intros [= <- <- <-]; reflexivity.
Qed.

Lemma base_errors_after_processing (s1 : Connection) (raw : RawResponse) :
  _resp_body_errors s1 = [] →
  (∀ r, ∃ dom, response_dom r = Return dom) →
  base_get_resp_body_errors (processed s1 raw) = Return [].
Proof.
  intros Hempty Hdom. unfold base_get_resp_body_errors.
  destruct (processed_fields s1 raw) as (Hr & _ & _ & _ & _ & Herrs).
  rewrite Herrs, Hempty, Hr. simpl.
  destruct (verb _); [|reflexivity].
  destruct (Hdom (normalized s1 raw)) as [dom ->]. reflexivity.
Qed.

End BaseClassFacts.

(** X19.  With the error extraction of the base class and [errors] not
    switched off, a response whose status is not 200 and whose reason is not
    empty makes [execute] raise ConnectionError with the message
    "<verb>: <reason>" and the normalized result. *)
Theorem base_class_raises_on_bad_status `{Platform}
    (v : option string) (data : pyval) (list_nodes : list string) (verb_attrs : pyval)
    (files : option (gmap string string)) (self s1 : Connection) (w w1 : world)
    (req : PreparedRequest) (raw : RawResponse) (c : Config) :
  @execute_build _ BaseService v data list_nodes verb_attrs files self w
    = (Return tt, s1, w1) →
  parallel self = None →
  config self = Some c →
  request s1 = Some req →
  transport w1 req = SendReturns raw →
  (∀ r, ∃ dom, response_dom r = Return dom) →
  raw_status_code raw ≠ 200 →
  raw_reason raw ≠ "" →
  default true (cfg_errors c) = true →
  @execute _ BaseService v data list_nodes verb_attrs files self w
    = (Raise (ConnectionError
                (str_of_opt v +:+ ": " +:+ smart_decode (smart_encode (raw_reason raw)))
                (Normalized (normalized s1 raw))),
       processed s1 raw, w1 ++ [EvSend req; EvSessionClose]).
Proof.
  intros Hbuild Hpar Hcfg Hreq Hsend Hdom Hstatus Hreason Hflag.
  destruct (@execute_build_frame _ BaseService _ _ _ _ _ _ _ _ _ _ Hbuild)
    as (Hpar1 & _ & _ & Herr & _).
  rewrite Hpar in Hpar1.
  assert (Hfacts : _resp_body_errors s1 = [] ∧ verb s1 = v ∧ config s1 = Some c).
  { rewrite (@execute_build_eq _ BaseService) in Hbuild.
    pose proof (@build_request_keeps_errors _ BaseService _ _ _ _ _ _ _ _ _ Hbuild) as Herrs.
    destruct (@build_request_keeps _ BaseService _ _ _ _ _ _ _ _ _ Hbuild)
      as (Hset & _ & Hverb & _).
    destruct (prepared_settings self v list_nodes) as (Hset0 & _).
    destruct Hset as (Hc & _). destruct Hset0 as (Hc0 & _).
    split; [|split; [exact Hverb | congruence]].
    rewrite Herrs. unfold prepared. destruct_fields self. reflexivity. }
  destruct Hfacts as (Hempty & Hverb & Hcfg1).
  destruct (processed_fields s1 raw) as (Hr & _ & Herror & Hverb2 & Hcfg2 & _).
  apply Z.eqb_neq in Hstatus. rewrite Hstatus in Herror. simpl in Herror.
  rewrite (@execute_stages _ BaseService), Hbuild.
  rewrite (@execute_rest_sent _ BaseService s1 w1 req raw Hreq Hpar1 Hsend).
  rewrite (@error_check_eq _ BaseService), (@error_eq _ BaseService).
  change (@_get_resp_body_errors BaseService) with base_get_resp_body_errors.
  rewrite (base_errors_after_processing s1 raw Hempty Hdom). cbv zeta.
  rewrite Herror. unfold str_truthy. rewrite bool_decide_eq_false_2 by exact Hreason.
  cbn [negb app length Nat.ltb Nat.leb map join].
  rewrite error_string_nonempty, Hcfg2, Hcfg1, Hflag, Hverb2, Hverb, Hr. reflexivity.
Qed.

Lemma base_class_raises_on_bad_status_witness :
  let raw := {| raw_status_code := 503; raw_reason := "Service Unavailable";
                raw_content := "" |} in
  let P := scripted (secs 100) (token_body "v1") (SendReturns raw) in
  let self := connection_of (TokenManager_init "id" "secret")
                (Some (trading_config None)) None in
  let built := @execute_build P (@BaseService P) (Some "GetItem") (PDict []) [] PNone None
                 self [] in
  ∃ req,
    request built.1.2 = Some req
    ∧ @execute P (@BaseService P) (Some "GetItem") (PDict []) [] PNone None self []
      = (Raise (ConnectionError "GetItem: Service Unavailable"
                  (Normalized (normalized built.1.2 raw))),
         processed built.1.2 raw, built.2 ++ [EvSend req; EvSessionClose]).
Proof.
  intros raw P self built.
  destruct (request built.1.2) as [req|] eqn:Hreq; [|vm_compute in Hreq; discriminate].
  exists req. split; [reflexivity|].
  apply (@base_class_raises_on_bad_status P (Some "GetItem") (PDict []) [] PNone None
           self built.1.2 [] built.2 req raw (trading_config None)).
  - vm_compute. reflexivity.
  - reflexivity.
  - reflexivity.
  - exact Hreq.
  - reflexivity.
  - intros r. exists None. reflexivity.
  - discriminate.
  - discriminate.
  - reflexivity.
Defined.

(** ** The constructor and the first call *)

(** X20.  The constructor touches nothing outside; it returns a connection
    iff [client_id] and [client_secret] are both given and non-empty, and
    then the token manager holds no token, no configuration is set, and the
    proxies map http and https to "http://<host>:<port>" when a proxy host
    is given and is empty otherwise. *)
Theorem init_succeeds_iff_credentials (method_ : string) (proxy_host_ : option string)
    (timeout_ proxy_port_ : Z) (parallel_ : option nat) (escape_xml_ : bool)
    (client_id_ client_secret_ : option string) (w : world) :
  let built := BaseConnection_init method_ proxy_host_ timeout_ proxy_port_ parallel_
                 escape_xml_ client_id_ client_secret_ tt w in
  built.2 = w
  ∧ ((∃ c, built.1.1 = Return c)
     ↔ (∃ id secret, client_id_ = Some id ∧ client_secret_ = Some secret
                     ∧ id ≠ "" ∧ secret ≠ ""))
  ∧ (∀ c, built.1.1 = Return c →
       token_manager c
       = TokenManager_init (default "" client_id_) (default "" client_secret_)
       ∧ response c = NoResponse
       ∧ request c = None
       ∧ config c = None
       ∧ parallel c = parallel_
       ∧ proxies c
         = (if opt_truthy proxy_host_
            then let proxy := "http://" +:+ str_of_opt proxy_host_ +:+ ":"
                              +:+ str_of_int proxy_port_ in
                 <["https" := proxy]> (<["http" := proxy]> ∅)
            else ∅)).
Proof.
  intros built. subst built.
  assert (Htruthy : ∀ o, opt_truthy o = true ↔ ∃ s, o = Some s ∧ s ≠ "").
  { intros [s|]; simpl; unfold str_truthy.
    - case_bool_decide as Hs; simpl.
      + split; [discriminate | intros (s' & [= <-] & Hne); contradiction].
      + split; [intros _; eauto | reflexivity].
    - split; [discriminate | intros (s' & Hs & _); discriminate]. }
  unfold BaseConnection_init.
  destruct (opt_truthy client_id_) eqn:Hid; simpl.
  - destruct (opt_truthy client_secret_) eqn:Hsecret; simpl.
    + split; [reflexivity|]. split.
      * split; [|intros _; eexists; reflexivity].
        intros _. apply Htruthy in Hid as (id & -> & Hne1).
        apply Htruthy in Hsecret as (secret & -> & Hne2). eauto 6.
      * intros c [= <-]. repeat split.
    + split; [reflexivity|]. split; [|discriminate].
      split; [intros [c Hc]; discriminate|].
      intros (id & secret & _ & -> & _ & Hne).
      assert (Hyes : opt_truthy (Some secret) = true) by (apply Htruthy; eauto).
      congruence.
  - split; [reflexivity|]. split; [|discriminate].
    split; [intros [c Hc]; discriminate|].
    intros (id & secret & -> & _ & Hne & _).
    assert (Hyes : opt_truthy (Some id) = true) by (apply Htruthy; eauto).
    congruence.
Qed.

Lemma init_succeeds_iff_credentials_witness :
  let built := BaseConnection_init "GET" (Some "proxy.local") 20 8080 None false
                 (Some "id") (Some "secret") tt [] in
  ∃ c, built.1.1 = Return c
       ∧ token_manager c = TokenManager_init "id" "secret"
       ∧ proxies c = <["https" := "http://proxy.local:8080"]>
                       (<["http" := "http://proxy.local:8080"]> ∅).
Proof.
  intros built.
  destruct (init_succeeds_iff_credentials "GET" (Some "proxy.local") 20 8080 None false
              (Some "id") (Some "secret") []) as (_ & [_ Hex] & Hfields).
  destruct Hex as [c Hc].
  { exists "id", "secret". repeat split; discriminate. }
  exists c. split; [exact Hc|].
  destruct (Hfields c Hc) as (Htm & _ & _ & _ & _ & Hprox).
  split; [exact Htm | exact Hprox].
Defined.

(** X21.  On a connection without configuration [execute] raises
    AttributeError while building the URL: a request id was drawn, the
    token manager was not called and no request was built. *)
Theorem execute_without_config `{Platform} `{Service}
    (v : option string) (data : pyval) (list_nodes : list string) (verb_attrs : pyval)
    (files : option (gmap string string)) (self : Connection) (w : world) :
  config self = None →
  ∃ s, execute v data list_nodes verb_attrs files self w
       = (Raise (AttributeError "NoneType object has no attribute get"), s,
          w ++ [EvUuid4 (uuid_source w)])
       ∧ token_manager s = token_manager self
       ∧ request s = None.
Proof.
  intros Hcfg. rewrite execute_stages, execute_build_eq, build_request_eq. cbv zeta.
  assert (Hcfg' : config (prepared self v list_nodes) = None)
    by (destruct_fields self; exact Hcfg).
  rewrite Hcfg'. eexists. split; [reflexivity|].
  destruct_fields self. split; reflexivity.
Qed.

Lemma execute_without_config_witness :
  let P := scripted (secs 100) (token_body "v1") ok_response in
  let S := reporting [] in
  let self := connection_of (TokenManager_init "id" "secret") None None in
  ∃ s, @execute P S (Some "GetItem") (PDict []) [] PNone None self []
       = (Raise (AttributeError "NoneType object has no attribute get"), s,
          [] ++ [EvUuid4 (@uuid_source P [])])
       ∧ token_manager s = token_manager self
       ∧ request s = None.
Proof.
  intros P S self.
  apply (@execute_without_config P S (Some "GetItem") (PDict []) [] PNone None self []).
  reflexivity.
Defined.


